(** * The Gemini channel adaptor (relay/channel/gemini/adaptor.go)

    A shallow embedding of the adaptor's request converters, its request
    header setup, its endpoint resolver, its response dispatcher and its
    image response handler, with the properties the specification states
    about them and further properties read off the code.

    Conventions.
    - A Go string is a byte sequence: [string] (a list of [ascii]).
    - A Go [(value, error)] result is a pair whose second component is
      [option error]; [None] is a nil error.  A nilable pointer or interface
      result is an [option].
    - A run-time panic (index out of range, failed type assertion) is the
      [Panics] outcome of the [outcome] monad.
    - Global settings and functions of other packages are arguments or
      [Variable]s of the section that holds the adaptor. *)

From Stdlib Require Import ZArith String Ascii List Lia.
From Stdlib Require Import DecimalString DecimalPos DecimalZ.
From stdpp Require Import base option strings gmap list.

Set Warnings "-register-all".
Local Open Scope Z_scope.

(** ** Outcomes: a function returns or panics *)

Inductive outcome (A : Type) : Type :=
  | Returns (a : A)
  | Panics (msg : string).
Arguments Returns {A} a.
Arguments Panics {A} msg.

#[global] Instance outcome_ret : MRet outcome := fun A a => Returns a.
#[global] Instance outcome_bind : MBind outcome := fun A B f c =>
  match c with
  | Returns a => f a
  | Panics msg => Panics msg
  end.

#[global] Instance outcome_fmap : FMap outcome := fun A B f c =>
  match c with
  | Returns a => Returns (f a)
  | Panics msg => Panics msg
  end.

(** ** Go's [error] values, as this file builds them *)

Inductive error : Type :=
  | errorString (msg : string).

Module errors.
Definition New (text : string) : error := errorString text.
End errors.

Definition error_Error (e : error) : string :=
  match e with errorString msg => msg end.

(** ** Go's [strings] package, on byte strings *)

Module strings.

(** [s[i:]] *)
Fixpoint sliceFrom (s : string) (i : nat) : string :=
  match i, s with
  | O, _ => s
  | S i', String _ s' => sliceFrom s' i'
  | S _, EmptyString => EmptyString
  end.

(** [s[:j]] *)
Definition sliceTo (s : string) (j : nat) : string := substring 0 j s.

Definition HasPrefix (s prefix : string) : bool := String.prefix prefix s.

Definition HasSuffix (s suffix : string) : bool :=
  (String.length suffix <=? String.length s)%nat
  && String.eqb (sliceFrom s (String.length s - String.length suffix)) suffix.

Definition TrimSuffix (s suffix : string) : string :=
  if HasSuffix s suffix
  then sliceTo s (String.length s - String.length suffix)
  else s.

(** The index of the first instance of [substr] in [s]; Go returns -1
    where this returns [None]. *)
Fixpoint Index (s substr : string) : option nat :=
  if String.prefix substr s then Some O
  else match s with
       | EmptyString => None
       | String _ s' => S <$> Index s' substr
       end.

Definition Contains (s substr : string) : bool :=
  match Index s substr with Some _ => true | None => false end.

(** [genSplit] with [sepSave = 0] and no limit, for a non-empty
    separator: cut at each instance of [sep], left to right.  Every round
    that finds [sep] consumes at least one byte, so [String.length s]
    rounds suffice. *)
Fixpoint genSplit (rounds : nat) (s sep : string) : list string :=
  match rounds with
  | O => [s]
  | S rounds' =>
      match Index s sep with
      | None => [s]
      | Some m =>
          sliceTo s m :: genSplit rounds' (sliceFrom s (m + String.length sep)) sep
      end
  end.

(** With an empty separator Go splits after each UTF-8 sequence; for the
    one-byte characters modelled here that is after each byte. *)
Fixpoint explode (s : string) : list string :=
  match s with
  | EmptyString => []
  | String c s' => String c EmptyString :: explode s'
  end.

Definition Split (s sep : string) : list string :=
  match sep with
  | EmptyString => explode s
  | _ => genSplit (String.length s) s sep
  end.

End strings.

(** [strconv.Itoa]: the decimal rendering of an integer. *)
Module strconv.
Definition Itoa (i : Z) : string := NilZero.string_of_int (Z.to_int i).
End strconv.

(** [a[0]] on a slice: an index out of range panics. *)
Definition index0 {A : Type} (a : list A) : outcome A :=
  match a with
  | x :: _ => Returns x
  | [] => Panics "index out of range [0] with length 0"
  end.

(** ** Dynamically typed values

    A Go [any] as [encoding/json] produces it: [nil], a string, a bool, a
    float64 number (kept as its IEEE bits), a [[]any] or a
    [map[string]any]. *)

Inductive any : Type :=
  | AnyNil
  | AnyString (s : string)
  | AnyBool (b : bool)
  | AnyFloat64 (bits : N)
  | AnySlice (l : list any)
  | AnyMap (m : gmap string any).

(** [m[key]]: a missing key gives the zero value, a nil interface. *)
Definition mapIndex (m : gmap string any) (key : string) : any :=
  default AnyNil (m !! key).

(** [x == "lit"] for an interface [x], as a [switch] case compares it: true
    only when the dynamic type is string and the bytes agree. *)
Definition anyEqString (x : any) (lit : string) : bool :=
  match x with
  | AnyString s => String.eqb s lit
  | _ => false
  end.

(** The dynamic type of a non-nil interface value, as a failed type
    assertion prints it. *)
Definition dynamicTypeName (x : any) : string :=
  match x with
  | AnyNil => "nil"
  | AnyString _ => "string"
  | AnyBool _ => "bool"
  | AnyFloat64 _ => "float64"
  | AnySlice _ => "[]interface {}"
  | AnyMap _ => "map[string]interface {}"
  end.

(** [x.(string)], the one-result form: panics unless [x] holds a string. *)
Definition assertString (x : any) : outcome string :=
  match x with
  | AnyString s => Returns s
  | _ => Panics ("interface conversion: interface {} is " +:+ dynamicTypeName x
                 +:+ ", not string")
  end.

(** [m, _ := x.(map[string]any)], the two-result form: never panics; a
    failed assertion leaves the nil map, which reads as the empty map. *)
Definition assertMapOk (x : any) : gmap string any :=
  match x with
  | AnyMap m => m
  | _ => ∅
  end.

(** ** Vendor and unified data shapes

    The struct declarations live in other files of the package and in
    [dto]; the records keep the fields this file assigns or reads, every
    other field staying at its zero value. *)

Record GeminiInlineData : Type := {
  MimeType : string;
  Data : string
}.

Record GeminiPart : Type := {
  Text : string;
  InlineData : option GeminiInlineData
}.

Record GeminiChatContent : Type := {
  Role : string;
  Parts : list GeminiPart
}.

Record GeminiEmbeddingRequest : Type := {
  Content : GeminiChatContent;
  OutputDimensionality : Z
}.

Record GeminiImageInstance : Type := {
  Prompt : string
}.

Record GeminiImageParameters : Type := {
  SampleCount : Z;
  AspectRatio : string;
  PersonGeneration : string
}.

Record GeminiImageRequest : Type := {
  Instances : list GeminiImageInstance;
  Parameters : GeminiImageParameters
}.

Record GeminiImagePrediction : Type := {
  BytesBase64Encoded : string;
  RaiFilteredReason : string
}.

Record GeminiImageResponse : Type := {
  Predictions : list GeminiImagePrediction
}.

(** [dto.Message], [dto.ImageRequest], [dto.EmbeddingRequest],
    [dto.ImageData], [dto.ImageResponse] and [dto.Usage]. *)

Record Message : Type := {
  Message_Role : string;
  Message_Content : any
}.

Record ImageRequest : Type := {
  ImageRequest_Prompt : string;
  ImageRequest_N : Z;
  ImageRequest_Size : string
}.

Record EmbeddingRequest : Type := {
  EmbeddingRequest_Input : any;
  EmbeddingRequest_Dimensions : Z
}.

Record ImageData : Type := {
  B64Json : string
}.

Record ImageResponse : Type := {
  Created : Z;
  ImageResponse_Data : list ImageData
}.

Record Usage : Type := {
  PromptTokens : Z;
  CompletionTokens : Z;
  TotalTokens : Z
}.

(** [service.GetFileBase64FromUrl]'s result. *)
Record FileData : Type := {
  FileData_MimeType : string;
  Base64Data : string
}.

(** ** Effects of a response handler

    The handler acts on the inbound body and on the outbound
    [c.Writer]; the calls are recorded in order. *)

Inductive effect : Type :=
  | BodyClose
  | HeaderSet (key value : string)
  | WriteHeader (statusCode : Z)
  | Write (data : string).

(** An [http.Response]: what [io.ReadAll(resp.Body)] gives, and the
    status code. *)
Record Response : Type := {
  Body : string * option error;
  StatusCode : Z
}.

Definition StatusInternalServerError : Z := 500.
Definition StatusBadRequest : Z := 400.

(** ** Request context *)

(** The fields of [relaycommon.RelayInfo] that the adaptor reads or
    writes. *)
Record RelayInfo : Type := {
  UpstreamModelName : string;
  BaseUrl : string;
  IsStream : bool;
  ApiKey : string
}.

Definition set_UpstreamModelName (info : RelayInfo) (name : string) : RelayInfo :=
  {| UpstreamModelName := name;
     BaseUrl := BaseUrl info;
     IsStream := IsStream info;
     ApiKey := ApiKey info |}.

(** The field of [model_setting.GetGeminiSettings()] that the adaptor
    reads. *)
Record GeminiSettings : Type := {
  ThinkingAdapterEnabled : bool
}.

(** What a request converter hands back as its [any] result. *)
Inductive payload : Type :=
  | ImagePayload (r : GeminiImageRequest)
  | EmbeddingPayload (r : GeminiEmbeddingRequest).

Section Adaptor.

(** [*gin.Context] and [dto.RerankRequest]: opaque to the functions
    below. *)
Variable Context : Type.
Variable RerankRequest : Type.

(** [model_setting.GetGeminiVersionSetting]: model name to API version. *)
Variable GetGeminiVersionSetting : string -> string.

(** [request.ParseInput()] of [dto.EmbeddingRequest]. *)
Variable ParseInput : EmbeddingRequest -> list string.

(** [service.DecodeBase64FileData]: [(format, base64, err)]. *)
Variable DecodeBase64FileData : string -> string * string * option error.

(** [service.GetFileBase64FromUrl]: the fetch of a remote file, as the
    function of the URL that one run observes. *)
Variable GetFileBase64FromUrl : string -> option FileData * option error.

(** [dto.OpenAIErrorWithStatusCode] and [service.OpenAIErrorWrapper]. *)
Variable OpenAIErrorWithStatusCode : Type.
Variable OpenAIErrorWrapper : error -> string -> Z -> OpenAIErrorWithStatusCode.

(** [json.Unmarshal] into a [GeminiImageResponse] and [json.Marshal] of a
    [dto.ImageResponse]. *)
Variable json_Unmarshal : string -> GeminiImageResponse * option error.
Variable json_Marshal : ImageResponse -> string * option error.

(** [common.GetTimestamp()], as read by the call. *)
Variable GetTimestamp : Z.

(** *** GetRequestURL

    [info] is a pointer in the source and [UpstreamModelName] is
    assigned through it: the updated [info] is returned next to the
    function's [(string, error)] result. *)

(** The first statement of [GetRequestURL], lines 102 to 112: the
    thinking adapter's rewrite of [info.UpstreamModelName]. *)
Definition thinkingAdapter (settings : GeminiSettings) (info : RelayInfo)
    : outcome RelayInfo :=
  if ThinkingAdapterEnabled settings then
    if strings.Contains (UpstreamModelName info) "-thinking-" then
      let parts := strings.Split (UpstreamModelName info) "-thinking-" in
      parts_0 ← index0 parts;
      mret (set_UpstreamModelName info parts_0)
    else if strings.HasSuffix (UpstreamModelName info) "-thinking" then
      mret (set_UpstreamModelName info
              (strings.TrimSuffix (UpstreamModelName info) "-thinking"))
    else if strings.HasSuffix (UpstreamModelName info) "-nothinking" then
      mret (set_UpstreamModelName info
              (strings.TrimSuffix (UpstreamModelName info) "-nothinking"))
    else mret info
  else mret info.

Definition GetRequestURL (settings : GeminiSettings) (info : RelayInfo)
    : outcome (RelayInfo * (string * option error)) :=
  info ← thinkingAdapter settings info;
  let version := GetGeminiVersionSetting (UpstreamModelName info) in
  if strings.HasPrefix (UpstreamModelName info) "imagen" then
    mret (info, (BaseUrl info +:+ "/" +:+ version +:+ "/models/"
                   +:+ UpstreamModelName info +:+ ":predict", None))
  else if strings.HasPrefix (UpstreamModelName info) "text-embedding"
          || strings.HasPrefix (UpstreamModelName info) "embedding"
          || strings.HasPrefix (UpstreamModelName info) "gemini-embedding" then
    mret (info, (BaseUrl info +:+ "/" +:+ version +:+ "/models/"
                   +:+ UpstreamModelName info +:+ ":embedContent", None))
  else
    let action := "generateContent" in
    let action := if IsStream info then "streamGenerateContent?alt=sse" else action in
    mret (info, (BaseUrl info +:+ "/" +:+ version +:+ "/models/"
                   +:+ UpstreamModelName info +:+ ":" +:+ action, None)).

(** *** ConvertImageRequest *)

(** The [switch request.Size] of [ConvertImageRequest], which assigns
    the local [aspectRatio]. *)
Definition aspectRatio (size : string) : string :=
  let aspectRatio := "1:1" in
  if String.eqb size "1024x1024" then "1:1"
  else if String.eqb size "1024x1792" then "9:16"
  else if String.eqb size "1792x1024" then "16:9"
  else aspectRatio.

Definition ConvertImageRequest (c : Context) (info : RelayInfo) (request : ImageRequest)
    : option payload * option error :=
  if negb (strings.HasPrefix (UpstreamModelName info) "imagen") then
    (None, Some (errors.New "not supported model for image generation"))
  else
    let geminiRequest :=
      {| Instances := [ {| Prompt := ImageRequest_Prompt request |} ];
         Parameters :=
           {| SampleCount := ImageRequest_N request;
              AspectRatio := aspectRatio (ImageRequest_Size request);
              PersonGeneration := "allow_adult" |} |} in
    (Some (ImagePayload geminiRequest), None).

(** *** ConvertRerankRequest *)

Definition ConvertRerankRequest (c : Context) (relayMode : Z) (request : RerankRequest)
    : option payload * option error :=
  (None, None).

(** *** ConvertEmbeddingRequest *)

Definition ConvertEmbeddingRequest (c : Context) (info : RelayInfo)
    (request : EmbeddingRequest) : option payload * option error :=
  match EmbeddingRequest_Input request with
  | AnyNil => (None, Some (errors.New "input is required"))
  | _ =>
      let inputs := ParseInput request in
      match inputs with
      | [] => (None, Some (errors.New "input is empty"))
      | inputs_0 :: _ =>
          let geminiRequest :=
            {| Content := {| Role := ""; Parts := [ {| Text := inputs_0; InlineData := None |} ] |};
               OutputDimensionality := 0 |} in
          let geminiRequest :=
            if String.eqb (UpstreamModelName info) "text-embedding-004" then
              if 0 <? EmbeddingRequest_Dimensions request then
                {| Content := Content geminiRequest;
                   OutputDimensionality := EmbeddingRequest_Dimensions request |}
              else geminiRequest
            else geminiRequest in
          (Some (EmbeddingPayload geminiRequest), None)
      end
  end.

(** *** openAIMessageContentToGeminiParts *)

(** [fileData.MimeType] through a pointer. *)
Definition deref {A : Type} (p : option A) : outcome A :=
  match p with
  | Some a => Returns a
  | None => Panics "invalid memory address or nil pointer dereference"
  end.

(** The [for _, mediaContent := range mediaContents] loop; [parts] is
    the slice built so far. *)
Fixpoint rangeMediaContents (mediaContents : list any) (parts : list GeminiPart)
    : outcome (list GeminiPart * option error) :=
  match mediaContents with
  | [] => mret (parts, None)
  | mediaContent :: mediaContents' =>
      match mediaContent with
      | AnyMap mediaMap =>
          if anyEqString (mapIndex mediaMap "type") "text" then
            text ← assertString (mapIndex mediaMap "text");
            rangeMediaContents mediaContents'
              (parts ++ [ {| Text := text; InlineData := None |} ])
          else if anyEqString (mapIndex mediaMap "type") "image_url" then
            let imageUrl := assertMapOk (mapIndex mediaMap "image_url") in
            url ← assertString (mapIndex imageUrl "url");
            let '(format, base64, err) := DecodeBase64FileData url in
            match err with
            | Some _ =>
                let '(fileData, err) := GetFileBase64FromUrl url in
                match err with
                | Some err => mret ([], Some err)
                | None =>
                    fileData ← deref fileData;
                    rangeMediaContents mediaContents'
                      (parts ++ [ {| Text := "";
                                     InlineData :=
                                       Some {| MimeType := FileData_MimeType fileData;
                                               Data := Base64Data fileData |} |} ])
                end
            | None =>
                rangeMediaContents mediaContents'
                  (parts ++ [ {| Text := "";
                                 InlineData :=
                                   Some {| MimeType := format; Data := base64 |} |} ])
            end
          else rangeMediaContents mediaContents' parts
      | _ => rangeMediaContents mediaContents' parts
      end
  end.

Definition openAIMessageContentToGeminiParts (content_any : any)
    : outcome (list GeminiPart * option error) :=
  let parts := [] in
  match content_any with
  | AnyString content =>
      mret (parts ++ [ {| Text := content; InlineData := None |} ], None)
  | AnySlice mediaContents => rangeMediaContents mediaContents parts
  | _ => mret ([], Some (errors.New "unsupported message content format"))
  end.

(** *** openAIMessageToGeminiContent *)

Definition openAIMessageToGeminiContent (message : Message)
    : outcome (option GeminiChatContent * option error) :=
  let role := Message_Role message in
  let role := if String.eqb role "assistant" then "model" else role in
  '(parts, err) ← openAIMessageContentToGeminiParts (Message_Content message);
  match err with
  | Some err => mret (None, Some err)
  | None => mret (Some {| Role := role; Parts := parts |}, None)
  end.

(** *** GeminiImageHandler *)

(** The loop over [geminiResponse.Predictions]; [data] is
    [openAIResponse.Data] so far. *)
Fixpoint rangePredictions (predictions : list GeminiImagePrediction)
    (data : list ImageData) : list ImageData :=
  match predictions with
  | [] => data
  | prediction :: predictions' =>
      if negb (String.eqb (RaiFilteredReason prediction) "") then
        rangePredictions predictions' data
      else
        rangePredictions predictions'
          (data ++ [ {| B64Json := BytesBase64Encoded prediction |} ])
  end.

Definition imageTokens : Z := 258.

(** The result pair [(usage, err)] and the effects performed, in order.
    Go's [int] is 64 bits wide; a slice length times 258 stays far below
    2^63, so the products are written without wrap-around. *)
Definition GeminiImageHandler (c : Context) (resp : Response) (info : RelayInfo)
    : (option Usage * option OpenAIErrorWithStatusCode) * list effect :=
  let '(responseBody, readErr) := Body resp in
  match readErr with
  | Some readErr =>
      ((None, Some (OpenAIErrorWrapper readErr "read_response_body_failed"
                      StatusInternalServerError)), [])
  | None =>
      let effects := [BodyClose] in
      let '(geminiResponse, jsonErr) := json_Unmarshal responseBody in
      match jsonErr with
      | Some jsonErr =>
          ((None, Some (OpenAIErrorWrapper jsonErr "unmarshal_response_body_failed"
                          StatusInternalServerError)), effects)
      | None =>
          if (length (Predictions geminiResponse) =? 0)%nat then
            ((None, Some (OpenAIErrorWrapper (errors.New "no images generated")
                            "no_images" StatusBadRequest)), effects)
          else
            let openAIResponse :=
              {| Created := GetTimestamp;
                 ImageResponse_Data :=
                   rangePredictions (Predictions geminiResponse) [] |} in
            let '(jsonResponse, jsonErr) := json_Marshal openAIResponse in
            match jsonErr with
            | Some jsonErr =>
                ((None, Some (OpenAIErrorWrapper jsonErr "marshal_response_failed"
                                StatusInternalServerError)), effects)
            | None =>
                let effects :=
                  effects ++ [ HeaderSet "Content-Type" "application/json";
                               WriteHeader (StatusCode resp);
                               Write jsonResponse ] in
                let generatedImages :=
                  Z.of_nat (length (ImageResponse_Data openAIResponse)) in
                let usage :=
                  {| PromptTokens := imageTokens * generatedImages;
                     CompletionTokens := 0;
                     TotalTokens := imageTokens * generatedImages |} in
                ((Some usage, None), effects)
            end
      end
  end.
End Adaptor.

Arguments ConvertImageRequest {Context} c info request.
Arguments ConvertRerankRequest {Context RerankRequest} c relayMode request.
Arguments ConvertEmbeddingRequest {Context} ParseInput c info request.
Arguments GeminiImageHandler {Context OpenAIErrorWithStatusCode}
  OpenAIErrorWrapper json_Unmarshal json_Marshal GetTimestamp c resp info.

(** ** The reasoning budget of a model id *)

(** Modelled from the spec: the function that reads the budget out of a
    model id is not in adaptor.go, which only strips the suffix
    ([GetRequestURL]).  Section 4.1: the form [<base>-thinking-<budget>]
    gives "reasoningBudget = parsed integer from <budget>", the budget being
    optional; the parser is active only when the thinking adapter is
    enabled.  [<budget>] is the text after the first "-thinking-", the
    instance at which [GetRequestURL] cuts. *)
Definition parseBudget (budget : string) : option Z :=
  Z.of_int <$> NilZero.int_of_string budget.

(** Modelled from the spec: the [reasoningBudget] field of the directive
    that section 4.1 derives from a model id (see [parseBudget]). *)
Definition reasoningBudget (settings : GeminiSettings) (modelId : string) : option Z :=
  if ThinkingAdapterEnabled settings then
    match strings.Index modelId "-thinking-" with
    | Some m => parseBudget (strings.sliceFrom modelId (m + String.length "-thinking-"))
    | None => None
    end
  else None.

(** ** The endpoint rules, as the specification words them *)

(** Section 4.2: rules evaluated in order, first match wins. *)
Definition spec_action (id : string) (streaming : bool) : string :=
  if strings.HasPrefix id "imagen" then "predict"
  else if strings.HasPrefix id "text-embedding" then "embedContent"
  else if strings.HasPrefix id "embedding" then "embedContent"
  else if strings.HasPrefix id "gemini-embedding" then "embedContent"
  else if streaming then "streamGenerateContent?alt=sse"
  else "generateContent".

(** Section 4.2: the output is [{base}/{version}/models/{id}:{action}]. *)
Definition spec_url (base version id action : string) : string :=
  base +:+ "/" +:+ version +:+ "/models/" +:+ id +:+ ":" +:+ action.

(** ** Surviving predictions and malformed content items *)

(** The predictions that carry no filter reason. *)
Definition surviving (predictions : list GeminiImagePrediction)
    : list GeminiImagePrediction :=
  filter (fun p => RaiFilteredReason p = "") predictions.

(** The image that the handler's loop appends for a prediction. *)
Definition toImageData (prediction : GeminiImagePrediction) : ImageData :=
  {| B64Json := BytesBase64Encoded prediction |}.

Definition isString (x : any) : bool :=
  match x with AnyString _ => true | _ => false end.

(** A content item of type "text" whose "text" is missing or not a string,
    or of type "image_url" whose "image_url"."url" is missing or not a
    string. *)
Definition malformedItem (item : any) : bool :=
  match item with
  | AnyMap m =>
      (anyEqString (mapIndex m "type") "text" && negb (isString (mapIndex m "text")))
      || (anyEqString (mapIndex m "type") "image_url"
          && negb (isString (mapIndex (assertMapOk (mapIndex m "image_url")) "url")))
  | _ => false
  end.

(** ** Sample collaborators and inputs *)

Definition sampleVersion (model : string) : string := "v1beta".

Definition sampleInfo (model : string) (stream : bool) : RelayInfo :=
  {| UpstreamModelName := model;
     BaseUrl := "https://generativelanguage.googleapis.com";
     IsStream := stream;
     ApiKey := "" |}.

(** An input parser for the samples: a string is one input, a list gives
    its string elements. *)
Definition sampleParseInput (request : EmbeddingRequest) : list string :=
  match EmbeddingRequest_Input request with
  | AnyString s => [s]
  | AnySlice l =>
      omap (fun x => match x with AnyString s => Some s | _ => None end) l
  | _ => []
  end.

Definition sampleDecode (url : string) : string * string * option error :=
  ("", "", Some (errors.New "invalid base64 data")).

Definition sampleFetch (url : string) : option FileData * option error :=
  (None, Some (errors.New "fetch failed")).

Definition sampleWrapper (err : error) (code : string) (statusCode : Z)
    : string * string * Z :=
  (error_Error err, code, statusCode).

Definition filteredPrediction : GeminiImagePrediction :=
  {| BytesBase64Encoded := ""; RaiFilteredReason := "blocked by safety filter" |}.

Definition imagePrediction (b64 : string) : GeminiImagePrediction :=
  {| BytesBase64Encoded := b64; RaiFilteredReason := "" |}.

Definition sampleUnmarshal (predictions : list GeminiImagePrediction) (body : string)
    : GeminiImageResponse * option error :=
  ({| Predictions := predictions |}, None).

Definition sampleMarshal (r : ImageResponse) : string * option error :=
  ("{}", None).

Definition sampleResponse : Response :=
  {| Body := ("{}", None); StatusCode := 200 |}.

Definition textItemWithoutText : any :=
  AnyMap (<["type" := AnyString "text"]> ∅).

Definition imageItemWithoutUrl : any :=
  AnyMap (<["type" := AnyString "image_url"]> (<["image_url" := AnyMap ∅]> ∅)).

Definition textItem (s : string) : any :=
  AnyMap (<["type" := AnyString "text"]> (<["text" := AnyString s]> ∅)).

(** ** The other functions of the adaptor *)

(** A [float64], kept as its IEEE bits; the adaptor only copies such
    values. *)
Definition float64 : Type := N.

(** [json.RawMessage]: a byte slice, nil when the field is absent. *)
Definition RawMessage : Type := option string.

(** An [http.Header]: canonical key to values. *)
Definition Header : Type := gmap string (list string).

(** [dto.AudioRequest], [dto.OpenAIResponsesRequest] and its tool
    entries: the fields this file reads. *)
Record AudioRequest : Type := {
  AudioRequest_Input : string
}.

Record ResponsesTool : Type := {
  ResponsesTool_Type : string;
  ResponsesTool_Function : RawMessage
}.

Record OpenAIResponsesRequest : Type := {
  Responses_Temperature : float64;
  Responses_TopP : float64;
  Responses_MaxOutputTokens : Z;
  Responses_Instructions : RawMessage;
  Responses_Input : RawMessage;
  Responses_Tools : list ResponsesTool
}.

Record GeminiChatGenerationConfig : Type := {
  Temperature : option float64;
  TopP : float64;
  MaxOutputTokens : Z
}.

Section AdaptorRest.

Variable Context : Type.

(** [dto.FunctionRequest], [dto.GeneralOpenAIRequest], [dto.ClaudeRequest]
    and the payload that [CovertGemini2OpenAI] and the package's
    [ConvertClaudeRequest] build: opaque to the functions below. *)
Variable FunctionRequest : Type.
Variable GeneralOpenAIRequest : Type.
Variable ClaudeRequest : Type.
Variable VendorChatRequest : Type.

Record GeminiChatTool : Type := {
  GoogleSearch : option (gmap string string);
  FunctionDeclarations : list FunctionRequest
}.

Record GeminiChatRequest : Type := {
  Contents : list GeminiChatContent;
  GenerationConfig : GeminiChatGenerationConfig;
  SystemInstructions : option GeminiChatContent;
  Tools : list GeminiChatTool
}.

(** The package-level [ConvertClaudeRequest] and [CovertGemini2OpenAI]. *)
Variable gemini_ConvertClaudeRequest :
  ClaudeRequest -> option VendorChatRequest * option error.
Variable CovertGemini2OpenAI :
  GeneralOpenAIRequest -> RelayInfo -> option VendorChatRequest * option error.

Variable DecodeBase64FileData : string -> string * string * option error.
Variable GetFileBase64FromUrl : string -> option FileData * option error.

(** [json.Marshal] of a [GeminiChatRequest]; [json.Unmarshal] into a
    string, into a [[]dto.Message] and into a [dto.FunctionRequest]. *)
Variable json_Marshal_chat : GeminiChatRequest -> string * option error.
Variable json_Unmarshal_string : string -> string * option error.
Variable json_Unmarshal_messages : string -> list Message * option error.
Variable json_Unmarshal_function : string -> FunctionRequest * option error.

(** [textproto.CanonicalMIMEHeaderKey] and
    [channel.SetupApiRequestHeader], the latter as the change it makes to
    the header. *)
Variable CanonicalMIMEHeaderKey : string -> string.
Variable SetupApiRequestHeader : RelayInfo -> Context -> Header -> Header.

(** The collaborators of [GeminiImageHandler]. *)
Variable OpenAIErrorWithStatusCode : Type.
Variable OpenAIErrorWrapper : error -> string -> Z -> OpenAIErrorWithStatusCode.
Variable json_Unmarshal : string -> GeminiImageResponse * option error.
Variable json_Marshal : ImageResponse -> string * option error.
Variable GetTimestamp : Z.

(** The response handlers of the package's other files, and
    [constant.RelayModeGemini].  The two chat handlers return the error
    first. *)
Variable GeminiTextGenerationStreamHandler GeminiTextGenerationHandler :
  Context -> Response -> RelayInfo ->
  (option Usage * option OpenAIErrorWithStatusCode) * list effect.
Variable GeminiEmbeddingHandler :
  Context -> Response -> RelayInfo ->
  (option Usage * option OpenAIErrorWithStatusCode) * list effect.
Variable GeminiChatStreamHandler GeminiChatHandler :
  Context -> Response -> RelayInfo ->
  (option OpenAIErrorWithStatusCode * option Usage) * list effect.
Variable RelayModeGemini : Z.

(** *** ConvertClaudeRequest *)

Definition ConvertClaudeRequest (c : Context) (info : RelayInfo) (request : ClaudeRequest)
    : option VendorChatRequest * option error :=
  let '(geminiRequest, err) := gemini_ConvertClaudeRequest request in
  match err with
  | Some err => (None, Some err)
  | None => (geminiRequest, None)
  end.

(** *** ConvertAudioRequest

    [fmt.Errorf] is kept as the message it formats; the reader returned
    is kept as the bytes it reads. *)
Definition ConvertAudioRequest (c : Context) (info : RelayInfo) (request : AudioRequest)
    : option string * option error :=
  let '(format, base64String, err) := DecodeBase64FileData (AudioRequest_Input request) in
  match err with
  | Some err =>
      (None, Some (errors.New ("decode base64 audio data failed: " +:+ error_Error err)))
  | None =>
      let geminiRequest :=
        {| Contents :=
             [ {| Role := "user";
                  Parts := [ {| Text := "";
                                InlineData :=
                                  Some {| MimeType := "audio/" +:+ format;
                                          Data := base64String |} |} ] |} ];
           GenerationConfig := {| Temperature := None; TopP := 0%N; MaxOutputTokens := 0 |};
           SystemInstructions := None;
           Tools := [] |} in
      let '(jsonData, err) := json_Marshal_chat geminiRequest in
      match err with
      | Some err =>
          (None, Some (errors.New ("error marshalling gemini audio request: "
                                   +:+ error_Error err)))
      | None => (Some jsonData, None)
      end
  end.

(** *** SetupRequestHeader *)

(** [h.Set(key, value)] and [h.Get(key)] of [http.Header]. *)
Definition Header_Set (h : Header) (key value : string) : Header :=
  <[CanonicalMIMEHeaderKey key := [value]]> h.

Definition Header_Get (h : Header) (key : string) : string :=
  match h !! CanonicalMIMEHeaderKey key with
  | Some (v :: _) => v
  | _ => ""
  end.

(** [req] is a pointer in the source: the header as the call leaves it is
    returned next to the error. *)
Definition SetupRequestHeader (c : Context) (req : Header) (info : RelayInfo)
    : Header * option error :=
  let req := SetupApiRequestHeader info c req in
  let req := Header_Set req "x-goog-api-key" (ApiKey info) in
  (req, None).

(** *** ConvertOpenAIRequest

    [request] is a pointer: [None] is nil. *)
Definition ConvertOpenAIRequest (c : Context) (info : RelayInfo)
    (request : option GeneralOpenAIRequest)
    : option VendorChatRequest * option error :=
  match request with
  | None => (None, Some (errors.New "request is nil"))
  | Some request =>
      let '(geminiRequest, err) := CovertGemini2OpenAI request info in
      match err with
      | Some err => (None, Some err)
      | None => (geminiRequest, None)
      end
  end.

(** *** ConvertOpenAIResponsesRequest *)

(** The loop over [inputMessages]; [contents] is [geminiRequest.Contents]
    so far.  An error leaves the whole function with [(nil, err)]. *)
Fixpoint rangeInputMessages (inputMessages : list Message)
    (contents : list GeminiChatContent)
    : outcome (list GeminiChatContent * option error) :=
  match inputMessages with
  | [] => mret (contents, None)
  | message :: inputMessages' =>
      '(geminiContent, err) ←
        openAIMessageToGeminiContent DecodeBase64FileData GetFileBase64FromUrl message;
      match err with
      | Some err => mret ([], Some err)
      | None =>
          geminiContent ← deref geminiContent;
          rangeInputMessages inputMessages' (contents ++ [geminiContent])
      end
  end.

(** The loop over [request.Tools]; [tools] is [geminiRequest.Tools] so
    far. *)
Fixpoint rangeTools (requestTools : list ResponsesTool) (tools : list GeminiChatTool)
    : list GeminiChatTool :=
  match requestTools with
  | [] => tools
  | tool :: requestTools' =>
      let tools :=
        if String.eqb (ResponsesTool_Type tool) "web_search" then
          tools ++ [ {| GoogleSearch := Some ∅; FunctionDeclarations := [] |} ]
        else tools in
      let tools :=
        if String.eqb (ResponsesTool_Type tool) "function" then
          match ResponsesTool_Function tool with
          | Some raw =>
              let '(function, err) := json_Unmarshal_function raw in
              match err with
              | None =>
                  tools ++ [ {| GoogleSearch := None;
                                FunctionDeclarations := [function] |} ]
              | Some _ => tools
              end
          | None => tools
          end
        else tools in
      rangeTools requestTools' tools
  end.

Definition ConvertOpenAIResponsesRequest (c : Context) (info : RelayInfo)
    (request : OpenAIResponsesRequest)
    : outcome (option GeminiChatRequest * option error) :=
  let generationConfig :=
    {| Temperature := Some (Responses_Temperature request);
       TopP := Responses_TopP request;
       MaxOutputTokens := Responses_MaxOutputTokens request |} in
  let systemInstructions :=
    match Responses_Instructions request with
    | Some raw =>
        let '(instructions, err) := json_Unmarshal_string raw in
        match err with
        | None => Some {| Role := "";
                          Parts := [ {| Text := instructions; InlineData := None |} ] |}
        | Some _ => None
        end
    | None => None
    end in
  '(contents, err) ←
    match Responses_Input request with
    | Some raw =>
        let '(inputMessages, err) := json_Unmarshal_messages raw in
        match err with
        | None => rangeInputMessages inputMessages []
        | Some _ => mret ([], None)
        end
    | None => mret ([], None)
    end;
  match err with
  | Some err => mret (None, Some err)
  | None =>
      mret (Some {| Contents := contents;
                    GenerationConfig := generationConfig;
                    SystemInstructions := systemInstructions;
                    Tools := rangeTools (Responses_Tools request) [] |},
            None)
  end.

(** *** DoResponse

    [info.RelayMode] is passed beside [info]. *)
Definition DoResponse (c : Context) (resp : Response) (relayMode : Z) (info : RelayInfo)
    : (option Usage * option OpenAIErrorWithStatusCode) * list effect :=
  if relayMode =? RelayModeGemini then
    if IsStream info then GeminiTextGenerationStreamHandler c resp info
    else GeminiTextGenerationHandler c resp info
  else if strings.HasPrefix (UpstreamModelName info) "imagen" then
    GeminiImageHandler OpenAIErrorWrapper json_Unmarshal json_Marshal GetTimestamp
      c resp info
  else if strings.HasPrefix (UpstreamModelName info) "text-embedding"
          || strings.HasPrefix (UpstreamModelName info) "embedding"
          || strings.HasPrefix (UpstreamModelName info) "gemini-embedding" then
    GeminiEmbeddingHandler c resp info
  else
    let '((err, usage), effects) :=
      if IsStream info then GeminiChatStreamHandler c resp info
      else GeminiChatHandler c resp info in
    ((usage, err), effects).

End AdaptorRest.

Arguments GoogleSearch {FunctionRequest} g.
Arguments FunctionDeclarations {FunctionRequest} g.
Arguments Contents {FunctionRequest} g.
Arguments GenerationConfig {FunctionRequest} g.
Arguments SystemInstructions {FunctionRequest} g.
Arguments Tools {FunctionRequest} g.
Arguments ConvertClaudeRequest {Context ClaudeRequest VendorChatRequest}
  gemini_ConvertClaudeRequest c info request.
Arguments ConvertOpenAIRequest {Context GeneralOpenAIRequest VendorChatRequest}
  CovertGemini2OpenAI c info request.
Arguments ConvertAudioRequest {Context FunctionRequest}
  DecodeBase64FileData json_Marshal_chat c info request.
Arguments SetupRequestHeader {Context}
  CanonicalMIMEHeaderKey SetupApiRequestHeader c req info.
Arguments rangeTools {FunctionRequest} json_Unmarshal_function requestTools tools.
Arguments ConvertOpenAIResponsesRequest {Context FunctionRequest}
  DecodeBase64FileData GetFileBase64FromUrl json_Unmarshal_string
  json_Unmarshal_messages json_Unmarshal_function c info request.
Arguments DoResponse {Context OpenAIErrorWithStatusCode}
  OpenAIErrorWrapper json_Unmarshal json_Marshal GetTimestamp
  GeminiTextGenerationStreamHandler GeminiTextGenerationHandler
  GeminiEmbeddingHandler GeminiChatStreamHandler GeminiChatHandler
  RelayModeGemini c resp relayMode info.

(** The tail that the adapter takes off a model name. *)
Definition thinkingTail (tail : string) : Prop :=
  tail = "" \/ String.prefix "-thinking" tail = true \/ tail = "-nothinking".

(** ** Parts, items and roles, for stating the encoder's properties *)

Definition textPart (s : string) : GeminiPart :=
  {| Text := s; InlineData := None |}.

Definition inlinePart (mimeType data : string) : GeminiPart :=
  {| Text := ""; InlineData := Some {| MimeType := mimeType; Data := data |} |}.

(** At most one variant of a part is populated. *)
Definition oneVariant (part : GeminiPart) : Prop :=
  Text part = "" \/ InlineData part = None.

(** An item of type "text" carrying the string [s]; an item of type
    "image_url" carrying the string [url]; other keys are free. *)
Definition isTextItemOf (item : any) (s : string) : Prop :=
  exists m, item = AnyMap m
            /\ m !! "type" = Some (AnyString "text")
            /\ m !! "text" = Some (AnyString s).

Definition isImageItemOf (item : any) (url : string) : Prop :=
  exists m mi, item = AnyMap m
               /\ m !! "type" = Some (AnyString "image_url")
               /\ m !! "image_url" = Some (AnyMap mi)
               /\ mi !! "url" = Some (AnyString url).

(** An item that is no map, or whose "type" is neither the string "text"
    nor the string "image_url". *)
Definition skippedItem (item : any) : bool :=
  match item with
  | AnyMap m =>
      negb (anyEqString (mapIndex m "type") "text")
      && negb (anyEqString (mapIndex m "type") "image_url")
  | _ => true
  end.

Definition mapRole (role : string) : string :=
  if String.eqb role "assistant" then "model" else role.

Definition imageItem (url : string) : any :=
  AnyMap (<["type" := AnyString "image_url"]>
            (<["image_url" := AnyMap (<["url" := AnyString url]> ∅)]> ∅)).

Definition sampleDecodeOk (url : string) : string * string * option error :=
  ("image/png", "QUJD", None).

(** A vendor tool as the instruction-style converter builds it: the
    search marker with no parameters, or one function declaration. *)
Definition toolShape {FunctionRequest : Type} (tool : GeminiChatTool FunctionRequest)
    : Prop :=
  (GoogleSearch tool = Some ∅ /\ FunctionDeclarations tool = [])
  \/ (GoogleSearch tool = None /\ exists f, FunctionDeclarations tool = [f]).

(** The vendor tools that one tool of the request gives: the search
    marker for "web_search"; one declaration for "function" with a schema
    that decodes; nothing for a function without a schema or with one that
    does not decode, and nothing for any other type. *)
Definition toolsOf {FunctionRequest : Type}
    (json_Unmarshal_function : string -> FunctionRequest * option error)
    (tool : ResponsesTool) : list (GeminiChatTool FunctionRequest) :=
  if String.eqb (ResponsesTool_Type tool) "web_search" then
    [ {| GoogleSearch := Some ∅; FunctionDeclarations := [] |} ]
  else if String.eqb (ResponsesTool_Type tool) "function" then
    match ResponsesTool_Function tool with
    | Some raw =>
        match json_Unmarshal_function raw with
        | (function, None) =>
            [ {| GoogleSearch := None; FunctionDeclarations := [function] |} ]
        | (_, Some _) => []
        end
    | None => []
    end
  else [].

Definition sampleUnmarshalMessages (messages : list Message) (raw : string)
    : list Message * option error :=
  (messages, None).

Definition sampleUnmarshalFails {A : Type} (zero : A) (raw : string) : A * option error :=
  (zero, Some (errors.New "invalid character")).

Definition sampleUnmarshalString (raw : string) : string * option error :=
  (raw, None).

Definition sampleUnmarshalFunction (raw : string) : string * option error :=
  (raw, None).

Definition sampleResponsesRequest (input : RawMessage) (tools : list ResponsesTool)
    : OpenAIResponsesRequest :=
  {| Responses_Temperature := 0%N;
     Responses_TopP := 0%N;
     Responses_MaxOutputTokens := 1024;
     Responses_Instructions := None;
     Responses_Input := input;
     Responses_Tools := tools |}.

(** * Properties *)

(** ** Byte strings *)

Lemma append_nil (t : string) : "" +:+ t = t.
Proof. reflexivity. Qed.

Lemma append_cons (a : ascii) (s t : string) : String a s +:+ t = String a (s +:+ t).
Proof. reflexivity. Qed.

Lemma prefix_nil (s : string) : String.prefix "" s = true.
Proof. destruct s; reflexivity. Qed.

Lemma prefix_cons (a b : ascii) (p s : string) :
  String.prefix (String a p) (String b s)
  = if Ascii.ascii_dec a b then String.prefix p s else false.
Proof. simpl. destruct (Ascii.ascii_dec a b); reflexivity. Qed.

Lemma prefix_append (p r : string) : String.prefix p (p +:+ r) = true.
Proof.
  induction p as [|c p IH].
  - apply prefix_nil.
  - rewrite append_cons, prefix_cons.
    destruct (Ascii.ascii_dec c c) as [_|Hne]; [exact IH | congruence].
Qed.

Lemma prefix_of_longer (p y z : string) :
  (String.length p <= String.length y)%nat ->
  String.prefix p (y +:+ z) = String.prefix p y.
Proof.
  revert y. induction p as [|c p IH]; intros y Hlen.
  - rewrite !prefix_nil. reflexivity.
  - destruct y as [|d y]; [simpl in Hlen; lia|].
    rewrite append_cons, !prefix_cons.
    destruct (Ascii.ascii_dec c d); [apply IH; simpl in Hlen; lia | reflexivity].
Qed.

Lemma length_append (s t : string) :
  String.length (s +:+ t) = (String.length s + String.length t)%nat.
Proof.
  induction s as [|a s IH]; [reflexivity|].
  rewrite append_cons. simpl. rewrite IH. reflexivity.
Qed.

Lemma append_assoc (s t u : string) : (s +:+ t) +:+ u = s +:+ t +:+ u.
Proof.
  induction s as [|a s IH]; [reflexivity|].
  rewrite !append_cons, IH. reflexivity.
Qed.

Lemma sliceTo_append (s r : string) : strings.sliceTo (s +:+ r) (String.length s) = s.
Proof.
  unfold strings.sliceTo. induction s as [|c s IH].
  - rewrite append_nil. destruct r; reflexivity.
  - rewrite append_cons. simpl. f_equal. exact IH.
Qed.

Lemma sliceFrom_0 (s : string) : strings.sliceFrom s 0 = s.
Proof. destruct s; reflexivity. Qed.

Lemma sliceFrom_append (s r : string) (k : nat) :
  strings.sliceFrom (s +:+ r) (String.length s + k) = strings.sliceFrom r k.
Proof.
  induction s as [|c s IH]; [reflexivity|].
  rewrite append_cons. simpl. exact IH.
Qed.

Lemma Contains_false_Index (s sub : string) :
  strings.Contains s sub = false <-> strings.Index s sub = None.
Proof. unfold strings.Contains. destruct (strings.Index s sub); split; congruence. Qed.

Lemma Index_unfold (s sub : string) :
  strings.Index s sub
  = if String.prefix sub s then Some O
    else match s with
         | EmptyString => None
         | String _ s' => S <$> strings.Index s' sub
         end.
Proof. destruct s; reflexivity. Qed.

Lemma Index_here (s sub : string) :
  String.prefix sub s = true -> strings.Index s sub = Some O.
Proof. intros H. rewrite Index_unfold, H. reflexivity. Qed.

Lemma Index_cons (a : ascii) (s sub : string) :
  String.prefix sub (String a s) = false ->
  strings.Index (String a s) sub = S <$> strings.Index s sub.
Proof. intros H. rewrite Index_unfold, H. reflexivity. Qed.

Lemma Index_cons_None (a : ascii) (s sub : string) :
  strings.Index (String a s) sub = None ->
  String.prefix sub (String a s) = false /\ strings.Index s sub = None.
Proof.
  intros H. destruct (String.prefix sub (String a s)) eqn:Hp.
  - rewrite (Index_here _ _ Hp) in H. discriminate.
  - split; [reflexivity|]. rewrite (Index_cons _ _ _ Hp) in H.
    destruct (strings.Index s sub); [discriminate | reflexivity].
Qed.

(** The first instance of [sep] in [base ++ sep ++ rest] is the one
    written out, as soon as no instance starts inside [base]. *)
Lemma Index_first (base sepInit rest : string) (c : ascii) :
  let sep := sepInit +:+ String c EmptyString in
  strings.Index (base +:+ sepInit) sep = None ->
  strings.Index (base +:+ sep +:+ rest) sep = Some (String.length base).
Proof.
  intros sep. induction base as [|a base IH]; intros Hnone.
  - rewrite append_nil. apply Index_here, prefix_append.
  - rewrite append_cons in Hnone. apply Index_cons_None in Hnone as [Hp Hi].
    assert (Hrw : String a base +:+ sep +:+ rest
                  = String a (base +:+ sepInit) +:+ String c rest).
    { unfold sep. rewrite !append_cons, !append_assoc. reflexivity. }
    assert (Hp' : String.prefix sep (String a base +:+ sep +:+ rest) = false).
    { rewrite Hrw, prefix_of_longer; [exact Hp|].
      unfold sep. simpl. rewrite !length_append. simpl. lia. }
    rewrite append_cons in Hp' |- *. rewrite (Index_cons _ _ _ Hp').
    rewrite (IH Hi). reflexivity.
Qed.

(** ** The endpoint resolver *)

Example GetRequestURL_scenario :
  GetRequestURL sampleVersion {| ThinkingAdapterEnabled := true |}
    (sampleInfo "gemini-2.0-thinking-512" false)
  = Returns (sampleInfo "gemini-2.0" false,
             ("https://generativelanguage.googleapis.com/v1beta/models/gemini-2.0:generateContent",
              None)).
Proof. vm_compute. reflexivity. Qed.

Example thinkingAdapter_suffix_forms :
  thinkingAdapter {| ThinkingAdapterEnabled := true |} (sampleInfo "foo-thinking" false)
  = Returns (sampleInfo "foo" false)
  /\ thinkingAdapter {| ThinkingAdapterEnabled := true |} (sampleInfo "foo-nothinking" false)
     = Returns (sampleInfo "foo" false)
  /\ thinkingAdapter {| ThinkingAdapterEnabled := true |} (sampleInfo "foo-thinking-" false)
     = Returns (sampleInfo "foo" false)
  /\ thinkingAdapter {| ThinkingAdapterEnabled := true |} (sampleInfo "gemini-pro" false)
     = Returns (sampleInfo "gemini-pro" false).
Proof. vm_compute. repeat split. Qed.

Example Split_examples :
  strings.Split "a-thinking-b-thinking-c" "-thinking-" = ["a"; "b"; "c"]
  /\ strings.Split "abc" "-thinking-" = ["abc"]
  /\ strings.Split "-thinking-" "-thinking-" = [""; ""].
Proof. vm_compute. repeat split. Qed.

Example GetRequestURL_actions :
  snd <$> GetRequestURL sampleVersion {| ThinkingAdapterEnabled := false |}
            (sampleInfo "imagen-3" true)
  = Returns ("https://generativelanguage.googleapis.com/v1beta/models/imagen-3:predict",
             None)
  /\ snd <$> GetRequestURL sampleVersion {| ThinkingAdapterEnabled := false |}
               (sampleInfo "gemini-embedding-001" true)
     = Returns ("https://generativelanguage.googleapis.com/v1beta/models/gemini-embedding-001:embedContent",
                None)
  /\ snd <$> GetRequestURL sampleVersion {| ThinkingAdapterEnabled := false |}
               (sampleInfo "gemini-pro" true)
     = Returns ("https://generativelanguage.googleapis.com/v1beta/models/gemini-pro:streamGenerateContent?alt=sse",
                None).
Proof. vm_compute. repeat split. Qed.

Lemma genSplit_cons (rounds : nat) (s sep : string) :
  exists p ps, strings.genSplit rounds s sep = p :: ps.
Proof.
  destruct rounds; simpl; [eauto|].
  destruct (strings.Index s sep); eauto.
Qed.

Lemma genSplit_first (rounds : nat) (s sep : string) (m : nat) :
  strings.Index s sep = Some m ->
  exists ps, strings.genSplit (S rounds) s sep = strings.sliceTo s m :: ps.
Proof. intros H. simpl. rewrite H. eauto. Qed.

Lemma set_UpstreamModelName_same (info : RelayInfo) :
  set_UpstreamModelName info (UpstreamModelName info) = info.
Proof. destruct info; reflexivity. Qed.

(** The adapter never panics, and touches nothing but the model name. *)
Lemma thinkingAdapter_returns (settings : GeminiSettings) (info : RelayInfo) :
  exists id, thinkingAdapter settings info = Returns (set_UpstreamModelName info id).
Proof.
  unfold thinkingAdapter.
  destruct (ThinkingAdapterEnabled settings);
    [| exists (UpstreamModelName info); rewrite set_UpstreamModelName_same; reflexivity].
  destruct (strings.Contains (UpstreamModelName info) "-thinking-").
  - change (strings.Split (UpstreamModelName info) "-thinking-")
      with (strings.genSplit (String.length (UpstreamModelName info))
              (UpstreamModelName info) "-thinking-").
    destruct (genSplit_cons (String.length (UpstreamModelName info))
                (UpstreamModelName info) "-thinking-") as (p & ps & E).
    rewrite E. exists p. reflexivity.
  - destruct (strings.HasSuffix (UpstreamModelName info) "-thinking"); [eexists; reflexivity|].
    destruct (strings.HasSuffix (UpstreamModelName info) "-nothinking"); [eexists; reflexivity|].
    exists (UpstreamModelName info). rewrite set_UpstreamModelName_same. reflexivity.
Qed.

Lemma thinkingAdapter_disabled (settings : GeminiSettings) (info : RelayInfo) :
  ThinkingAdapterEnabled settings = false -> thinkingAdapter settings info = Returns info.
Proof. intros H. unfold thinkingAdapter. rewrite H. reflexivity. Qed.

Section Resolver.

Variable GetGeminiVersionSetting : string -> string.

(** What follows the adapter in [GetRequestURL] is the specification's
    URL template, filled with the specification's action. *)
Lemma GetRequestURL_after (settings : GeminiSettings) (info info' : RelayInfo) :
  thinkingAdapter settings info = Returns info' ->
  GetRequestURL GetGeminiVersionSetting settings info
  = Returns (info',
             (spec_url (BaseUrl info')
                (GetGeminiVersionSetting (UpstreamModelName info'))
                (UpstreamModelName info')
                (spec_action (UpstreamModelName info') (IsStream info')),
              None)).
Proof.
  intros H. unfold GetRequestURL. rewrite H.
  unfold spec_url, spec_action. simpl.
  destruct (strings.HasPrefix (UpstreamModelName info') "imagen"); [reflexivity|].
  destruct (strings.HasPrefix (UpstreamModelName info') "text-embedding"); [reflexivity|].
  destruct (strings.HasPrefix (UpstreamModelName info') "embedding"); [reflexivity|].
  destruct (strings.HasPrefix (UpstreamModelName info') "gemini-embedding"); [reflexivity|].
  destruct (IsStream info'); reflexivity.
Qed.

End Resolver.

(** C4: the endpoint resolver never fails; its URL is
    [{base}/{version}/models/{id}:{action}] for the id the adapter leaves
    in [info], with the action that the ordered prefix rules give:
    "predict" for "imagen", "embedContent" for the three embedding
    prefixes, else "streamGenerateContent?alt=sse" or "generateContent"
    by the streaming flag. *)
Theorem GetRequestURL_resolves (GetGeminiVersionSetting : string -> string)
    (settings : GeminiSettings) (info : RelayInfo) :
  exists id,
    thinkingAdapter settings info = Returns (set_UpstreamModelName info id)
    /\ GetRequestURL GetGeminiVersionSetting settings info
       = Returns (set_UpstreamModelName info id,
                  (spec_url (BaseUrl info) (GetGeminiVersionSetting id) id
                     (spec_action id (IsStream info)),
                   None)).
Proof.
  destruct (thinkingAdapter_returns settings info) as [id Hid].
  exists id. split; [exact Hid|].
  rewrite (GetRequestURL_after _ _ _ _ Hid). reflexivity.
Qed.

(** C8: with the thinking adapter disabled the model id passes through
    unchanged: [info] comes back as it went in, whatever the id, and the
    URL is resolved for that very id. *)
Theorem thinkingAdapter_disabled_identity (GetGeminiVersionSetting : string -> string)
    (settings : GeminiSettings) (info : RelayInfo) :
  ThinkingAdapterEnabled settings = false ->
  thinkingAdapter settings info = Returns info
  /\ GetRequestURL GetGeminiVersionSetting settings info
     = Returns (info,
                (spec_url (BaseUrl info)
                   (GetGeminiVersionSetting (UpstreamModelName info))
                   (UpstreamModelName info)
                   (spec_action (UpstreamModelName info) (IsStream info)),
                 None)).
Proof.
  intros Hoff. pose proof (thinkingAdapter_disabled settings info Hoff) as H.
  split; [exact H|]. exact (GetRequestURL_after _ _ _ _ H).
Qed.

Lemma thinkingAdapter_disabled_identity_witness :
  thinkingAdapter {| ThinkingAdapterEnabled := false |}
    (sampleInfo "gemini-2.0-thinking-512" true)
  = Returns (sampleInfo "gemini-2.0-thinking-512" true)
  /\ GetRequestURL sampleVersion {| ThinkingAdapterEnabled := false |}
       (sampleInfo "gemini-2.0-thinking-512" true)
     = Returns (sampleInfo "gemini-2.0-thinking-512" true,
                (spec_url (BaseUrl (sampleInfo "gemini-2.0-thinking-512" true))
                   (sampleVersion "gemini-2.0-thinking-512")
                   "gemini-2.0-thinking-512"
                   (spec_action "gemini-2.0-thinking-512" true),
                 None)).
Proof.
  apply (thinkingAdapter_disabled_identity sampleVersion
           {| ThinkingAdapterEnabled := false |}
           (sampleInfo "gemini-2.0-thinking-512" true)).
  reflexivity.
Defined.

(** ** The budget form of a model id *)

Lemma parseBudget_Itoa (b : Z) : parseBudget (strconv.Itoa b) = Some b.
Proof.
  unfold parseBudget, strconv.Itoa.
  rewrite NilZero.isi.
  - simpl. rewrite DecimalZ.of_to. reflexivity.
  - destruct b as [|p|p]; simpl; try discriminate.
    intros H. injection H as H. exact (Unsigned.to_uint_nonnil p H).
  - destruct b as [|p|p]; simpl; try discriminate.
    intros H. injection H as H. exact (Unsigned.to_uint_nonnil p H).
Qed.

Lemma Index_thinking_budget (base rest : string) :
  strings.Contains (base +:+ "-thinking") "-thinking-" = false ->
  strings.Index (base +:+ "-thinking-" +:+ rest) "-thinking-"
  = Some (String.length base).
Proof.
  intros H. apply Contains_false_Index in H.
  exact (Index_first base "-thinking" rest "-" H).
Qed.

Lemma thinkingAdapter_cut (settings : GeminiSettings) (info : RelayInfo)
    (base rest : string) :
  ThinkingAdapterEnabled settings = true ->
  strings.Contains (base +:+ "-thinking") "-thinking-" = false ->
  thinkingAdapter settings
    (set_UpstreamModelName info (base +:+ "-thinking-" +:+ rest))
  = Returns (set_UpstreamModelName info base).
Proof.
  intros Hon Hbase. pose proof (Index_thinking_budget base rest Hbase) as Hidx.
  unfold thinkingAdapter. rewrite Hon. simpl UpstreamModelName.
  unfold strings.Contains. rewrite Hidx.
  change (strings.Split (base +:+ "-thinking-" +:+ rest) "-thinking-")
    with (strings.genSplit (String.length (base +:+ "-thinking-" +:+ rest))
            (base +:+ "-thinking-" +:+ rest) "-thinking-").
  rewrite !length_append.
  replace (String.length base + (String.length "-thinking-" + String.length rest))%nat
    with (S (String.length base + (9 + String.length rest)))%nat by (simpl; lia).
  destruct (genSplit_first (String.length base + (9 + String.length rest))
              _ _ _ Hidx) as [ps E].
  rewrite E, sliceTo_append. reflexivity.
Qed.

(** ** The request converters *)

(** C6: the size table.  The three literal sizes give "9:16", "16:9" and
    "1:1"; every other string, the empty one included, gives "1:1"; and
    the image converter puts that value, a function of the size alone, in
    the payload. *)
Theorem aspectRatio_table :
  aspectRatio "1024x1792" = "9:16"
  /\ aspectRatio "1792x1024" = "16:9"
  /\ aspectRatio "1024x1024" = "1:1"
  /\ aspectRatio "" = "1:1"
  /\ (forall size : string,
        size <> "1024x1792" -> size <> "1792x1024" -> aspectRatio size = "1:1")
  /\ (forall (Context : Type) (c : Context) (info : RelayInfo) (request : ImageRequest),
        strings.HasPrefix (UpstreamModelName info) "imagen" = true ->
        exists g, ConvertImageRequest c info request = (Some (ImagePayload g), None)
                  /\ AspectRatio (Parameters g) = aspectRatio (ImageRequest_Size request)).
Proof.
  repeat split; try reflexivity.
  - intros size H1 H2. unfold aspectRatio.
    destruct (String.eqb_spec size "1024x1024"); [reflexivity|].
    destruct (String.eqb_spec size "1024x1792"); [contradiction|].
    destruct (String.eqb_spec size "1792x1024"); [contradiction|].
    reflexivity.
  - intros Context c info request H. unfold ConvertImageRequest. rewrite H. simpl.
    eexists. split; reflexivity.
Qed.

Lemma aspectRatio_table_witness :
  aspectRatio "512x512" = "1:1"
  /\ exists g,
       ConvertImageRequest tt (sampleInfo "imagen-3" false)
         {| ImageRequest_Prompt := "a cat"; ImageRequest_N := 2;
            ImageRequest_Size := "1792x1024" |}
       = (Some (ImagePayload g), None)
       /\ AspectRatio (Parameters g) = aspectRatio "1792x1024".
Proof.
  destruct aspectRatio_table as (_ & _ & _ & _ & Hother & Hconv).
  split.
  - apply (Hother "512x512"); discriminate.
  - apply (Hconv unit tt (sampleInfo "imagen-3" false)
             {| ImageRequest_Prompt := "a cat"; ImageRequest_N := 2;
                ImageRequest_Size := "1792x1024" |}).
    reflexivity.
Defined.

Example ConvertImageRequest_scenario :
  ConvertImageRequest tt (sampleInfo "imagen-3" false)
    {| ImageRequest_Prompt := "a cat"; ImageRequest_N := 2;
       ImageRequest_Size := "1792x1024" |}
  = (Some (ImagePayload
             {| Instances := [ {| Prompt := "a cat" |} ];
                Parameters := {| SampleCount := 2; AspectRatio := "16:9";
                                 PersonGeneration := "allow_adult" |} |}),
     None).
Proof. reflexivity. Qed.

(** C10: the rerank converter hands back a nil payload and a nil error
    for every request: nothing is converted and nothing is signalled. *)
Theorem ConvertRerankRequest_nil (Context RerankRequest : Type)
    (c : Context) (relayMode : Z) (request : RerankRequest) :
  ConvertRerankRequest c relayMode request = (None, None).
Proof. reflexivity. Qed.

(** C5: the embedding converter returns an error exactly when the input is
    absent or parses to the empty sequence; on a present input that parses
    to a non-empty sequence it succeeds, and the payload's content is the
    single text part holding the first parsed string. *)
Theorem ConvertEmbeddingRequest_first_input (Context : Type)
    (ParseInput : EmbeddingRequest -> list string)
    (c : Context) (info : RelayInfo) (request : EmbeddingRequest) :
  (is_Some (snd (ConvertEmbeddingRequest ParseInput c info request))
   <-> EmbeddingRequest_Input request = AnyNil \/ ParseInput request = [])
  /\ (forall (first : string) (others : list string),
        EmbeddingRequest_Input request <> AnyNil ->
        ParseInput request = first :: others ->
        exists g,
          ConvertEmbeddingRequest ParseInput c info request
          = (Some (EmbeddingPayload g), None)
          /\ Content g = {| Role := "";
                            Parts := [ {| Text := first; InlineData := None |} ] |}).
Proof.
  unfold ConvertEmbeddingRequest. split.
  - destruct (EmbeddingRequest_Input request) eqn:Hin;
      destruct (ParseInput request) eqn:Hparse; simpl; split;
      intros H; eauto; try (destruct H as [? H']; discriminate H');
      destruct H as [H|H]; discriminate H.
  - intros first others Hin Hparse. rewrite Hparse.
    destruct (EmbeddingRequest_Input request); try contradiction;
      (destruct (String.eqb (UpstreamModelName info) "text-embedding-004");
       [destruct (0 <? EmbeddingRequest_Dimensions request)|];
       eexists; split; reflexivity).
Qed.

Lemma ConvertEmbeddingRequest_first_input_witness :
  exists g,
    ConvertEmbeddingRequest sampleParseInput tt (sampleInfo "text-embedding-004" false)
      {| EmbeddingRequest_Input := AnySlice [AnyString "a"; AnyString "b"; AnyString "c"];
         EmbeddingRequest_Dimensions := 0 |}
    = (Some (EmbeddingPayload g), None)
    /\ Content g = {| Role := ""; Parts := [ {| Text := "a"; InlineData := None |} ] |}.
Proof.
  apply (proj2 (ConvertEmbeddingRequest_first_input unit sampleParseInput tt
                  (sampleInfo "text-embedding-004" false)
                  {| EmbeddingRequest_Input :=
                       AnySlice [AnyString "a"; AnyString "b"; AnyString "c"];
                     EmbeddingRequest_Dimensions := 0 |})
           "a" ["b"; "c"]).
  - discriminate.
  - reflexivity.
Defined.

(** ** The part and content encoder *)

Section Encoder.

Variable DecodeBase64FileData : string -> string * string * option error.
Variable GetFileBase64FromUrl : string -> option FileData * option error.

Local Abbreviation range :=
  (rangeMediaContents DecodeBase64FileData GetFileBase64FromUrl).
Local Abbreviation encode :=
  (openAIMessageContentToGeminiParts DecodeBase64FileData GetFileBase64FromUrl).

(** Items on which the loop runs to its end leave the loop where a
    shorter list would have left it. *)
Lemma rangeMediaContents_app (pre rest : list any) :
  forall parts parts' : list GeminiPart,
    range pre parts = Returns (parts', None) ->
    range (pre ++ rest) parts = range rest parts'.
Proof.
  induction pre as [|item pre IH]; intros parts parts' H.
  - injection H as ->. reflexivity.
  - simpl in H |- *.
    destruct item as [| | | | |mediaMap]; try (apply IH; exact H).
    destruct (anyEqString (mapIndex mediaMap "type") "text").
    { destruct (assertString (mapIndex mediaMap "text")); simpl in H |- *;
        [apply IH; exact H | discriminate H]. }
    destruct (anyEqString (mapIndex mediaMap "type") "image_url");
      [| apply IH; exact H].
    destruct (assertString (mapIndex (assertMapOk (mapIndex mediaMap "image_url")) "url"))
      as [url|]; simpl in H |- *; [| discriminate H].
    destruct (DecodeBase64FileData url) as [[format base64] [decodeErr|]];
      [| apply IH; exact H].
    destruct (GetFileBase64FromUrl url) as [fileData [fetchErr|]];
      [discriminate H|].
    destruct fileData; simpl in H |- *; [apply IH; exact H | discriminate H].
Qed.

Lemma assertString_not_string (x : any) :
  isString x = false -> exists msg, assertString x = Panics msg.
Proof. destruct x; simpl; intros H; try discriminate H; eauto. Qed.

(** A malformed item at the head of the loop makes it panic. *)
Lemma rangeMediaContents_malformed (item : any) (rest : list any)
    (parts : list GeminiPart) :
  malformedItem item = true ->
  exists msg, range (item :: rest) parts = Panics msg.
Proof.
  intros H. destruct item as [| | | | |mediaMap]; try discriminate H.
  simpl in H |- *.
  destruct (anyEqString (mapIndex mediaMap "type") "text") eqn:Htext; simpl in H.
  - destruct (isString (mapIndex mediaMap "text")) eqn:Hs; simpl in H.
    + (* the type cannot be both "text" and "image_url" *)
      destruct (mapIndex mediaMap "type") as [|ty| | | |]; try discriminate Htext.
      simpl in Htext, H. apply String.eqb_eq in Htext. subst ty.
      discriminate H.
    + destruct (assertString_not_string _ Hs) as [msg ->]. eauto.
  - destruct (anyEqString (mapIndex mediaMap "type") "image_url"); [| discriminate H].
    simpl in H. apply negb_true_iff in H.
    destruct (assertString_not_string _ H) as [msg ->]. eauto.
Qed.

(** C7: a message of role "assistant" with plain string content [s]
    converts to one content entry, of role "model", whose parts are the
    single text part [s]. *)
Theorem assistant_text_to_model (s : string) :
  openAIMessageToGeminiContent DecodeBase64FileData GetFileBase64FromUrl
    {| Message_Role := "assistant"; Message_Content := AnyString s |}
  = Returns (Some {| Role := "model";
                     Parts := [ {| Text := s; InlineData := None |} ] |},
             None).
Proof. reflexivity. Qed.

(** C9: the encoder is partial.  When the loop reaches an item of type
    "text" whose "text" is missing or not a string, or an item of type
    "image_url" whose "image_url"."url" is missing or not a string, the
    unchecked assertion panics: the encoder neither returns an error nor
    skips the item. *)
Theorem malformed_item_panics (pre rest : list any) (item : any)
    (parts : list GeminiPart) :
  malformedItem item = true ->
  range pre [] = Returns (parts, None) ->
  exists msg, encode (AnySlice (pre ++ item :: rest)) = Panics msg.
Proof.
  intros Hbad Hpre. unfold openAIMessageContentToGeminiParts.
  rewrite (rangeMediaContents_app pre (item :: rest) [] parts Hpre).
  exact (rangeMediaContents_malformed item rest parts Hbad).
Qed.

End Encoder.

Lemma malformed_item_panics_witness :
  exists msg,
    openAIMessageContentToGeminiParts sampleDecode sampleFetch
      (AnySlice ([textItem "hi"] ++ textItemWithoutText :: [textItem "there"]))
    = Panics msg.
Proof.
  apply (malformed_item_panics sampleDecode sampleFetch
           [textItem "hi"] [textItem "there"] textItemWithoutText
           [ {| Text := "hi"; InlineData := None |} ]).
  - vm_compute. reflexivity.
  - vm_compute. reflexivity.
Defined.

Example image_item_without_url_panics :
  openAIMessageContentToGeminiParts sampleDecode sampleFetch
    (AnySlice [imageItemWithoutUrl])
  = Panics "interface conversion: interface {} is nil, not string".
Proof. vm_compute. reflexivity. Qed.

Example text_item_with_number_panics :
  openAIMessageContentToGeminiParts sampleDecode sampleFetch
    (AnySlice [AnyMap (<["type" := AnyString "text"]> (<["text" := AnyFloat64 0]> ∅))])
  = Panics "interface conversion: interface {} is float64, not string".
Proof. vm_compute. reflexivity. Qed.

Example unknown_item_skipped :
  openAIMessageContentToGeminiParts sampleDecode sampleFetch
    (AnySlice [AnyMap (<["type" := AnyString "audio"]> ∅); textItem "hi"])
  = Returns ([ {| Text := "hi"; InlineData := None |} ], None).
Proof. vm_compute. reflexivity. Qed.

(** ** The image response handler *)

(** The loop appends one image per surviving prediction, in order. *)
Lemma rangePredictions_surviving (predictions : list GeminiImagePrediction) :
  forall data : list ImageData,
    rangePredictions predictions data = data ++ (toImageData <$> surviving predictions).
Proof.
  unfold surviving.
  induction predictions as [|prediction predictions IH]; intros data; simpl.
  - rewrite app_nil_r. reflexivity.
  - rewrite filter_cons.
    destruct (String.eqb_spec (RaiFilteredReason prediction) "") as [Heq|Hne]; simpl.
    + rewrite decide_True by exact Heq. rewrite IH, <- app_assoc. reflexivity.
    + rewrite decide_False by exact Hne. apply IH.
Qed.

Lemma rangePredictions_length (predictions : list GeminiImagePrediction) :
  length (rangePredictions predictions []) = length (surviving predictions).
Proof. rewrite rangePredictions_surviving. simpl. apply length_fmap. Qed.

Section ImageHandler.

Variable Context : Type.
Variable OpenAIErrorWithStatusCode : Type.
Variable OpenAIErrorWrapper : error -> string -> Z -> OpenAIErrorWithStatusCode.
Variable json_Unmarshal : string -> GeminiImageResponse * option error.
Variable json_Marshal : ImageResponse -> string * option error.
Variable GetTimestamp : Z.

Local Abbreviation handler :=
  (GeminiImageHandler OpenAIErrorWrapper json_Unmarshal json_Marshal GetTimestamp).

(** An empty decoded prediction list is the "no images generated"
    error. *)
Lemma GeminiImageHandler_no_predictions (c : Context) (resp : Response)
    (info : RelayInfo) (body : string) (geminiResponse : GeminiImageResponse) :
  Body resp = (body, None) ->
  json_Unmarshal body = (geminiResponse, None) ->
  Predictions geminiResponse = [] ->
  handler c resp info
  = ((None, Some (OpenAIErrorWrapper (errors.New "no images generated")
                    "no_images" 400)),
     [BodyClose]).
Proof.
  intros Hbody Hjson Hnil. unfold GeminiImageHandler.
  rewrite Hbody, Hjson, Hnil. reflexivity.
Qed.

(** A non-empty decoded prediction list is answered with the surviving
    images and a usage record of 258 tokens for each of them. *)
Lemma GeminiImageHandler_success (c : Context) (resp : Response)
    (info : RelayInfo) (body jsonResponse : string)
    (geminiResponse : GeminiImageResponse) :
  Body resp = (body, None) ->
  json_Unmarshal body = (geminiResponse, None) ->
  Predictions geminiResponse <> [] ->
  json_Marshal {| Created := GetTimestamp;
                  ImageResponse_Data :=
                    toImageData <$> surviving (Predictions geminiResponse) |}
  = (jsonResponse, None) ->
  handler c resp info
  = ((Some {| PromptTokens :=
                258 * Z.of_nat (length (surviving (Predictions geminiResponse)));
              CompletionTokens := 0;
              TotalTokens :=
                258 * Z.of_nat (length (surviving (Predictions geminiResponse))) |},
      None),
     [BodyClose; HeaderSet "Content-Type" "application/json";
      WriteHeader (StatusCode resp); Write jsonResponse]).
Proof.
  intros Hbody Hjson Hne Hmarshal. unfold GeminiImageHandler.
  rewrite Hbody, Hjson.
  destruct (Predictions geminiResponse) as [|p ps] eqn:Hps; [contradiction|].
  change (length (p :: ps) =? 0)%nat with false. cbv iota.
  rewrite rangePredictions_surviving, app_nil_l, Hmarshal.
  cbv zeta. cbn [ImageResponse_Data]. rewrite length_fmap. reflexivity.
Qed.

(** C2: whenever the handler answers a decoded, non-empty prediction
    list of which [N] predictions survive the filter, the usage record
    it synthesizes is [{258 * N, 0, 258 * N}], and its total is the sum
    of its prompt and completion tokens. *)
Theorem GeminiImageHandler_usage (c : Context) (resp : Response)
    (info : RelayInfo) (body jsonResponse : string)
    (geminiResponse : GeminiImageResponse) :
  Body resp = (body, None) ->
  json_Unmarshal body = (geminiResponse, None) ->
  Predictions geminiResponse <> [] ->
  json_Marshal {| Created := GetTimestamp;
                  ImageResponse_Data :=
                    toImageData <$> surviving (Predictions geminiResponse) |}
  = (jsonResponse, None) ->
  exists usage,
    fst (handler c resp info) = (Some usage, None)
    /\ PromptTokens usage
       = 258 * Z.of_nat (length (surviving (Predictions geminiResponse)))
    /\ CompletionTokens usage = 0
    /\ TotalTokens usage
       = 258 * Z.of_nat (length (surviving (Predictions geminiResponse)))
    /\ TotalTokens usage = PromptTokens usage + CompletionTokens usage.
Proof.
  intros Hbody Hjson Hne Hmarshal.
  rewrite (GeminiImageHandler_success c resp info body jsonResponse geminiResponse
             Hbody Hjson Hne Hmarshal).
  eexists. split; [reflexivity|]. simpl. repeat split; lia.
Qed.

(** C1 fails on the code: a non-empty prediction list of which every
    prediction is filtered passes the emptiness test, which precedes the
    filter, and is answered with an empty image list and a zero usage
    record instead of the "no images generated" error. *)
Theorem GeminiImageHandler_all_filtered (c : Context) (resp : Response)
    (info : RelayInfo) (body jsonResponse : string)
    (geminiResponse : GeminiImageResponse) :
  Body resp = (body, None) ->
  json_Unmarshal body = (geminiResponse, None) ->
  Predictions geminiResponse <> [] ->
  surviving (Predictions geminiResponse) = [] ->
  json_Marshal {| Created := GetTimestamp; ImageResponse_Data := [] |}
  = (jsonResponse, None) ->
  handler c resp info
  = ((Some {| PromptTokens := 0; CompletionTokens := 0; TotalTokens := 0 |}, None),
     [BodyClose; HeaderSet "Content-Type" "application/json";
      WriteHeader (StatusCode resp); Write jsonResponse]).
Proof.
  intros Hbody Hjson Hne Hnone Hmarshal.
  rewrite (GeminiImageHandler_success c resp info body jsonResponse geminiResponse
             Hbody Hjson Hne); rewrite Hnone; [reflexivity | exact Hmarshal].
Qed.

End ImageHandler.

Lemma GeminiImageHandler_usage_witness :
  exists usage,
    fst (GeminiImageHandler sampleWrapper
           (sampleUnmarshal [imagePrediction "QUJD"; filteredPrediction;
                             imagePrediction "REVG"])
           sampleMarshal 1700000000 tt sampleResponse (sampleInfo "imagen-3" false))
    = (Some usage, None)
    /\ PromptTokens usage = 258 * Z.of_nat 2
    /\ CompletionTokens usage = 0
    /\ TotalTokens usage = 258 * Z.of_nat 2
    /\ TotalTokens usage = PromptTokens usage + CompletionTokens usage.
Proof.
  apply (GeminiImageHandler_usage unit (string * string * Z) sampleWrapper
           (sampleUnmarshal [imagePrediction "QUJD"; filteredPrediction;
                             imagePrediction "REVG"])
           sampleMarshal 1700000000 tt sampleResponse (sampleInfo "imagen-3" false)
           "{}" "{}"
           {| Predictions := [imagePrediction "QUJD"; filteredPrediction;
                              imagePrediction "REVG"] |}).
  - reflexivity.
  - reflexivity.
  - discriminate.
  - reflexivity.
Defined.

Lemma GeminiImageHandler_all_filtered_witness :
  GeminiImageHandler sampleWrapper (sampleUnmarshal [filteredPrediction])
    sampleMarshal 1700000000 tt sampleResponse (sampleInfo "imagen-3" false)
  = ((Some {| PromptTokens := 0; CompletionTokens := 0; TotalTokens := 0 |}, None),
     [BodyClose; HeaderSet "Content-Type" "application/json";
      WriteHeader (StatusCode sampleResponse); Write "{}"]).
Proof.
  apply (GeminiImageHandler_all_filtered unit (string * string * Z) sampleWrapper
           (sampleUnmarshal [filteredPrediction]) sampleMarshal 1700000000
           tt sampleResponse (sampleInfo "imagen-3" false) "{}" "{}"
           {| Predictions := [filteredPrediction] |}).
  - reflexivity.
  - reflexivity.
  - discriminate.
  - vm_compute. reflexivity.
  - reflexivity.
Defined.

Example GeminiImageHandler_empty_list_is_error :
  GeminiImageHandler sampleWrapper (sampleUnmarshal []) sampleMarshal 1700000000
    tt sampleResponse (sampleInfo "imagen-3" false)
  = ((None, Some ("no images generated", "no_images", 400)), [BodyClose]).
Proof. reflexivity. Qed.

(** * Further properties of the adaptor *)

(** ** What the thinking adapter removes *)

Lemma append_nil_r (s : string) : s +:+ "" = s.
Proof.
  induction s as [|a s IH]; [reflexivity|].
  rewrite append_cons, IH. reflexivity.
Qed.

Lemma sliceTo_cons (a : ascii) (s : string) (m : nat) :
  strings.sliceTo (String a s) (S m) = String a (strings.sliceTo s m).
Proof. reflexivity. Qed.

Lemma sliceTo_0 (s : string) : strings.sliceTo s 0 = "".
Proof. destruct s; reflexivity. Qed.

Lemma sliceTo_sliceFrom (s : string) :
  forall m : nat, s = strings.sliceTo s m +:+ strings.sliceFrom s m.
Proof.
  induction s as [|a s IH]; intros [|m]; try reflexivity.
  rewrite sliceTo_cons, append_cons. simpl strings.sliceFrom.
  f_equal. apply IH.
Qed.

Lemma prefix_length (p s : string) :
  String.prefix p s = true -> (String.length p <= String.length s)%nat.
Proof.
  revert s. induction p as [|c p IH]; intros s H; [simpl; lia|].
  destruct s as [|d s]; [discriminate H|].
  rewrite prefix_cons in H. destruct (Ascii.ascii_dec c d); [|discriminate H].
  apply IH in H. simpl. lia.
Qed.

Lemma prefix_append_l (p s r : string) :
  String.prefix p s = true -> String.prefix p (s +:+ r) = true.
Proof.
  intros H. rewrite prefix_of_longer; [exact H | exact (prefix_length _ _ H)].
Qed.

Lemma prefix_weaken (p q s : string) :
  String.prefix (p +:+ q) s = true -> String.prefix p s = true.
Proof.
  revert s. induction p as [|c p IH]; intros s H; [apply prefix_nil|].
  rewrite append_cons in H. destruct s as [|d s]; [discriminate H|].
  rewrite prefix_cons in H |- *.
  destruct (Ascii.ascii_dec c d); [apply IH; exact H | discriminate H].
Qed.

Lemma prefix_sliceTo (p s : string) (k : nat) :
  String.prefix p (strings.sliceTo s k) = true -> String.prefix p s = true.
Proof.
  intros H. rewrite (sliceTo_sliceFrom s k). apply prefix_append_l. exact H.
Qed.

(** [Index] finds an instance: the text from the index on starts with
    the separator. *)
Lemma Index_Some_prefix (s sep : string) :
  forall m : nat,
    strings.Index s sep = Some m -> String.prefix sep (strings.sliceFrom s m) = true.
Proof.
  induction s as [|a s IH]; intros m H; rewrite Index_unfold in H.
  - destruct (String.prefix sep "") eqn:Hp; [|discriminate H].
    injection H as <-. exact Hp.
  - destruct (String.prefix sep (String a s)) eqn:Hp.
    + injection H as <-. exact Hp.
    + destruct (strings.Index s sep) as [m'|] eqn:Hi; [|discriminate H].
      injection H as <-. simpl. apply IH. reflexivity.
Qed.

(** ... and it finds the first one: none lies in the text before it. *)
Lemma Index_Some_before (s : string) (c : ascii) (sep' : string) :
  forall m : nat,
    strings.Index s (String c sep') = Some m ->
    strings.Index (strings.sliceTo s m) (String c sep') = None.
Proof.
  induction s as [|a s IH]; intros m H; rewrite Index_unfold in H.
  - destruct m; reflexivity.
  - destruct (String.prefix (String c sep') (String a s)) eqn:Hp.
    + injection H as <-. reflexivity.
    + destruct (strings.Index s (String c sep')) as [m'|] eqn:Hi; [|discriminate H].
      injection H as <-. rewrite sliceTo_cons, Index_cons.
      * rewrite (IH m' eq_refl). reflexivity.
      * destruct (String.prefix (String c sep') (String a (strings.sliceTo s m'))) eqn:Hq;
          [|reflexivity].
        rewrite <- sliceTo_cons in Hq. apply prefix_sliceTo in Hq. congruence.
Qed.

Lemma Index_None_sliceTo (s : string) (c : ascii) (sep' : string) :
  forall k : nat,
    strings.Index s (String c sep') = None ->
    strings.Index (strings.sliceTo s k) (String c sep') = None.
Proof.
  induction s as [|a s IH]; intros k H.
  - destruct k; reflexivity.
  - apply Index_cons_None in H as [Hp Hi]. destruct k as [|k]; [reflexivity|].
    rewrite sliceTo_cons, Index_cons.
    + rewrite (IH k Hi). reflexivity.
    + destruct (String.prefix (String c sep') (String a (strings.sliceTo s k))) eqn:Hq;
        [|reflexivity].
      rewrite <- sliceTo_cons in Hq. apply prefix_sliceTo in Hq. congruence.
Qed.

Lemma HasSuffix_sliceFrom (s suffix : string) :
  strings.HasSuffix s suffix = true ->
  strings.sliceFrom s (String.length s - String.length suffix) = suffix.
Proof.
  unfold strings.HasSuffix. intros H. apply andb_true_iff in H as [_ H].
  apply String.eqb_eq. exact H.
Qed.

(** X1: the adapter never fails, changes nothing but the model name, and
    leaves a prefix of the name: what it takes off is empty, starts with
    "-thinking", or is "-nothinking". *)
Theorem thinkingAdapter_keeps_prefix (settings : GeminiSettings) (info : RelayInfo) :
  exists id tail,
    thinkingAdapter settings info = Returns (set_UpstreamModelName info id)
    /\ UpstreamModelName info = id +:+ tail
    /\ thinkingTail tail.
Proof.
  unfold thinkingAdapter, thinkingTail.
  set (name := UpstreamModelName info).
  assert (Hsame : exists id tail,
             Returns info = Returns (set_UpstreamModelName info id)
             /\ name = id +:+ tail
             /\ (tail = "" \/ String.prefix "-thinking" tail = true \/ tail = "-nothinking")).
  { exists name, "". rewrite set_UpstreamModelName_same, append_nil_r. auto. }
  clearbody name.
  destruct (ThinkingAdapterEnabled settings); [|exact Hsame].
  unfold strings.Contains.
  destruct (strings.Index name "-thinking-") as [m|] eqn:Hidx.
  - change (strings.Split name "-thinking-")
      with (strings.genSplit (String.length name) name "-thinking-").
    destruct (String.length name) as [|rounds] eqn:Hlen.
    + destruct name; [|discriminate Hlen]. discriminate Hidx.
    + destruct (genSplit_first rounds _ _ _ Hidx) as [ps ->].
      exists (strings.sliceTo name m), (strings.sliceFrom name m).
      split; [reflexivity|]. split; [apply sliceTo_sliceFrom|].
      right; left. apply (prefix_weaken "-thinking" "-").
      exact (Index_Some_prefix _ _ _ Hidx).
  - unfold strings.TrimSuffix.
    destruct (strings.HasSuffix name "-thinking") eqn:H1.
    + exists (strings.sliceTo name (String.length name - String.length "-thinking")),
        "-thinking".
      split; [reflexivity|]. split; [|auto].
      rewrite <- (HasSuffix_sliceFrom _ _ H1) at 2. apply sliceTo_sliceFrom.
    + destruct (strings.HasSuffix name "-nothinking") eqn:H2; [|exact Hsame].
      exists (strings.sliceTo name (String.length name - String.length "-nothinking")),
        "-nothinking".
      split; [reflexivity|]. split; [|auto].
      rewrite <- (HasSuffix_sliceFrom _ _ H2) at 2. apply sliceTo_sliceFrom.
Qed.

Lemma thinkingAdapter_no_budget_marker_aux (name : string) (rounds m : nat) :
  strings.Index name "-thinking-" = Some m ->
  exists ps, strings.genSplit (S rounds) name "-thinking-" = strings.sliceTo name m :: ps
             /\ strings.Contains (strings.sliceTo name m) "-thinking-" = false.
Proof.
  intros Hidx. destruct (genSplit_first rounds _ _ _ Hidx) as [ps E].
  exists ps. split; [exact E|].
  apply Contains_false_Index. exact (Index_Some_before _ _ _ _ Hidx).
Qed.

(** X2: with the adapter enabled, the model name that is left holds no
    "-thinking-" any more, whatever the name was. *)
Theorem thinkingAdapter_no_budget_marker (settings : GeminiSettings) (info : RelayInfo) :
  ThinkingAdapterEnabled settings = true ->
  exists id,
    thinkingAdapter settings info = Returns (set_UpstreamModelName info id)
    /\ strings.Contains id "-thinking-" = false.
Proof.
  intros Hon. unfold thinkingAdapter. rewrite Hon.
  generalize (UpstreamModelName info) (set_UpstreamModelName_same info).
  intros name Hsame.
  destruct (strings.Contains name "-thinking-") eqn:Hc.
  - unfold strings.Contains in Hc.
    destruct (strings.Index name "-thinking-") as [m|] eqn:Hidx; [|discriminate Hc].
    change (strings.Split name "-thinking-")
      with (strings.genSplit (String.length name) name "-thinking-").
    destruct (String.length name) as [|rounds] eqn:Hlen.
    + destruct name; [discriminate Hidx | discriminate Hlen].
    + destruct (thinkingAdapter_no_budget_marker_aux name rounds m Hidx)
        as (ps & -> & Hfree).
      eexists. split; [reflexivity | exact Hfree].
  - apply Contains_false_Index in Hc. unfold strings.TrimSuffix.
    destruct (strings.HasSuffix name "-thinking").
    { eexists. split; [reflexivity|].
      apply Contains_false_Index, Index_None_sliceTo, Hc. }
    destruct (strings.HasSuffix name "-nothinking").
    { eexists. split; [reflexivity|].
      apply Contains_false_Index, Index_None_sliceTo, Hc. }
    exists name. rewrite Hsame. split; [reflexivity|].
    apply Contains_false_Index, Hc.
Qed.

Lemma thinkingAdapter_no_budget_marker_witness :
  exists id,
    thinkingAdapter {| ThinkingAdapterEnabled := true |}
      (sampleInfo "my-thinking-model-thinking-128" false)
    = Returns (set_UpstreamModelName (sampleInfo "my-thinking-model-thinking-128" false) id)
    /\ strings.Contains id "-thinking-" = false.
Proof.
  apply (thinkingAdapter_no_budget_marker {| ThinkingAdapterEnabled := true |}
           (sampleInfo "my-thinking-model-thinking-128" false)).
  reflexivity.
Defined.

Lemma sliceFrom_length (s r : string) : strings.sliceFrom (s +:+ r) (String.length s) = r.
Proof.
  rewrite <- (Nat.add_0_r (String.length s)), sliceFrom_append. apply sliceFrom_0.
Qed.

Lemma HasSuffix_append (s suffix : string) : strings.HasSuffix (s +:+ suffix) suffix = true.
Proof.
  unfold strings.HasSuffix. rewrite length_append.
  replace (String.length s + String.length suffix - String.length suffix)%nat
    with (String.length s) by lia.
  rewrite sliceFrom_length, String.eqb_refl.
  apply andb_true_iff. split; [apply Nat.leb_le; lia | reflexivity].
Qed.

Lemma TrimSuffix_append (s suffix : string) : strings.TrimSuffix (s +:+ suffix) suffix = s.
Proof.
  unfold strings.TrimSuffix. rewrite HasSuffix_append, length_append.
  replace (String.length s + String.length suffix - String.length suffix)%nat
    with (String.length s) by lia.
  apply sliceTo_append.
Qed.

Lemma nothinking_not_thinking (s : string) :
  strings.HasSuffix (s +:+ "-nothinking") "-thinking" = false.
Proof.
  unfold strings.HasSuffix. rewrite length_append.
  replace (String.length s + String.length "-nothinking" - String.length "-thinking")%nat
    with (String.length s + 2)%nat by (simpl; lia).
  rewrite sliceFrom_append. apply andb_false_r.
Qed.

(** X3: the two suffix forms.  With the adapter enabled, a name
    [base ++ "-thinking"], and a name [base ++ "-nothinking"], that hold no
    "-thinking-" are rewritten to [base]. *)
Theorem thinkingAdapter_suffix (settings : GeminiSettings) (info : RelayInfo)
    (base : string) :
  ThinkingAdapterEnabled settings = true ->
  (strings.Contains (base +:+ "-thinking") "-thinking-" = false ->
   thinkingAdapter settings (set_UpstreamModelName info (base +:+ "-thinking"))
   = Returns (set_UpstreamModelName info base))
  /\ (strings.Contains (base +:+ "-nothinking") "-thinking-" = false ->
      thinkingAdapter settings (set_UpstreamModelName info (base +:+ "-nothinking"))
      = Returns (set_UpstreamModelName info base)).
Proof.
  intros Hon. unfold thinkingAdapter. rewrite Hon. simpl UpstreamModelName. split.
  - intros ->. rewrite HasSuffix_append, TrimSuffix_append. reflexivity.
  - intros ->. rewrite nothinking_not_thinking, HasSuffix_append, TrimSuffix_append.
    reflexivity.
Qed.

Lemma thinkingAdapter_suffix_witness :
  thinkingAdapter {| ThinkingAdapterEnabled := true |}
    (set_UpstreamModelName (sampleInfo "" false) ("gemini-2.5-flash" +:+ "-thinking"))
  = Returns (set_UpstreamModelName (sampleInfo "" false) "gemini-2.5-flash")
  /\ thinkingAdapter {| ThinkingAdapterEnabled := true |}
       (set_UpstreamModelName (sampleInfo "" false) ("gemini-2.5-flash" +:+ "-nothinking"))
     = Returns (set_UpstreamModelName (sampleInfo "" false) "gemini-2.5-flash").
Proof.
  destruct (thinkingAdapter_suffix {| ThinkingAdapterEnabled := true |}
              (sampleInfo "" false) "gemini-2.5-flash" eq_refl) as [H1 H2].
  split; [apply H1 | apply H2]; vm_compute; reflexivity.
Defined.

(** ** The adapter and the endpoint action *)

Lemma prefix_split (p : string) :
  forall id tail : string,
    String.prefix p (id +:+ tail) = true ->
    String.prefix p id = true
    \/ ((String.length id < String.length p)%nat
        /\ String.prefix (strings.sliceFrom p (String.length id)) tail = true).
Proof.
  induction p as [|c p IH]; intros id tail H; [left; apply prefix_nil|].
  destruct id as [|d id].
  - right. split; [simpl; lia | exact H].
  - rewrite append_cons, prefix_cons in H. rewrite prefix_cons.
    destruct (Ascii.ascii_dec c d); [|discriminate H].
    destruct (IH id tail H) as [Hl|[Hlt Hr]]; [left; exact Hl|].
    right. split; [simpl; lia | exact Hr].
Qed.

Lemma thinkingTail_shape (tail : string) :
  thinkingTail tail ->
  tail = "" \/ exists x t, tail = String "-" (String x t) /\ (x = "t" \/ x = "n")%char.
Proof.
  intros [H|[H| ->]]; [left; exact H | | right; eauto].
  right. destruct tail as [|a tail]; [discriminate H|].
  rewrite prefix_cons in H.
  destruct (Ascii.ascii_dec "-" a); [|discriminate H].
  destruct tail as [|b t]; [discriminate H|].
  rewrite prefix_cons in H.
  destruct (Ascii.ascii_dec "t" b); [|discriminate H].
  subst. eauto.
Qed.

(** No thinking tail can start inside one of the four routing prefixes. *)
Lemma routing_prefix_not_cut (p : string) (x : ascii) (t : string) (k : nat) :
  p ∈ ["imagen"; "text-embedding"; "embedding"; "gemini-embedding"] ->
  (x = "t" \/ x = "n")%char ->
  (k < String.length p)%nat ->
  String.prefix (strings.sliceFrom p k) (String "-" (String x t)) = false.
Proof.
  intros Hp Hx Hk.
  repeat (apply elem_of_cons in Hp as [->|Hp]); [| | | |inversion Hp];
    destruct Hx as [-> | ->];
    do 17 (destruct k as [|k]; [first [reflexivity | simpl in Hk; lia]|]);
    simpl in Hk; lia.
Qed.

Lemma routing_prefix_kept (p id tail : string) :
  p ∈ ["imagen"; "text-embedding"; "embedding"; "gemini-embedding"] ->
  thinkingTail tail ->
  strings.HasPrefix (id +:+ tail) p = strings.HasPrefix id p.
Proof.
  intros Hp Htail. unfold strings.HasPrefix.
  destruct (String.prefix p id) eqn:Hid; [apply prefix_append_l; exact Hid|].
  destruct (thinkingTail_shape tail Htail) as [-> | (x & t & -> & Hx)].
  - rewrite append_nil_r. exact Hid.
  - destruct (String.prefix p (id +:+ String "-" (String x t))) eqn:Hfull; [|reflexivity].
    apply prefix_split in Hfull as [Hl|[Hlt Hr]]; [congruence|].
    rewrite (routing_prefix_not_cut p x t _ Hp Hx Hlt) in Hr. discriminate Hr.
Qed.

Lemma spec_action_kept (id tail : string) (streaming : bool) :
  thinkingTail tail -> spec_action (id +:+ tail) streaming = spec_action id streaming.
Proof.
  intros Htail. unfold spec_action.
  rewrite !routing_prefix_kept by (exact Htail || set_solver).
  reflexivity.
Qed.

(** X4: a thinking suffix never changes the endpoint action.  For every
    setting and every model name, the URL that [GetRequestURL] resolves
    carries the action of the name as it was given, whatever the adapter
    took off. *)
Theorem GetRequestURL_action_of_given_name (GetGeminiVersionSetting : string -> string)
    (settings : GeminiSettings) (info : RelayInfo) :
  exists id,
    GetRequestURL GetGeminiVersionSetting settings info
    = Returns (set_UpstreamModelName info id,
               (spec_url (BaseUrl info) (GetGeminiVersionSetting id) id
                  (spec_action (UpstreamModelName info) (IsStream info)),
                None)).
Proof.
  destruct (thinkingAdapter_keeps_prefix settings info) as (id & tail & Hid & Hname & Htail).
  exists id. rewrite (GetRequestURL_after _ _ _ _ Hid), Hname.
  rewrite (spec_action_kept id tail _ Htail). reflexivity.
Qed.

Lemma spec_action_predict (id : string) (streaming : bool) :
  spec_action id streaming = "predict" <-> strings.HasPrefix id "imagen" = true.
Proof.
  unfold spec_action. destruct (strings.HasPrefix id "imagen"); [tauto|].
  destruct (strings.HasPrefix id "text-embedding"); [split; discriminate|].
  destruct (strings.HasPrefix id "embedding"); [split; discriminate|].
  destruct (strings.HasPrefix id "gemini-embedding"); [split; discriminate|].
  destruct streaming; split; discriminate.
Qed.

(** X5: the image converter and the endpoint resolver agree.  The
    converter, which sees the name as given, accepts a request exactly
    when the resolver, which sees the name after the adapter, routes it to
    ":predict". *)
Theorem ConvertImageRequest_iff_predict (Context : Type)
    (GetGeminiVersionSetting : string -> string) (settings : GeminiSettings)
    (c : Context) (info : RelayInfo) (request : ImageRequest) :
  exists id action,
    GetRequestURL GetGeminiVersionSetting settings info
    = Returns (set_UpstreamModelName info id,
               (spec_url (BaseUrl info) (GetGeminiVersionSetting id) id action, None))
    /\ (snd (ConvertImageRequest c info request) = None <-> action = "predict")
    /\ (is_Some (fst (ConvertImageRequest c info request)) <-> action = "predict").
Proof.
  destruct (thinkingAdapter_keeps_prefix settings info) as (id & tail & Hid & Hname & Htail).
  exists id, (spec_action (UpstreamModelName info) (IsStream info)).
  split.
  - rewrite (GetRequestURL_after _ _ _ _ Hid), Hname.
    rewrite (spec_action_kept id tail _ Htail). reflexivity.
  - rewrite spec_action_predict. unfold ConvertImageRequest.
    destruct (strings.HasPrefix (UpstreamModelName info) "imagen"); simpl.
    + split; split; eauto.
    + split; split; try discriminate. intros [? H]. discriminate H.
Qed.

(** ** The response dispatcher *)

Section Dispatch.

Variable Context : Type.
Variable OpenAIErrorWithStatusCode : Type.
Variable OpenAIErrorWrapper : error -> string -> Z -> OpenAIErrorWithStatusCode.
Variable json_Unmarshal : string -> GeminiImageResponse * option error.
Variable json_Marshal : ImageResponse -> string * option error.
Variable GetTimestamp : Z.
Variable GeminiTextGenerationStreamHandler GeminiTextGenerationHandler :
  Context -> Response -> RelayInfo ->
  (option Usage * option OpenAIErrorWithStatusCode) * list effect.
Variable GeminiEmbeddingHandler :
  Context -> Response -> RelayInfo ->
  (option Usage * option OpenAIErrorWithStatusCode) * list effect.
Variable GeminiChatStreamHandler GeminiChatHandler :
  Context -> Response -> RelayInfo ->
  (option OpenAIErrorWithStatusCode * option Usage) * list effect.
Variable RelayModeGemini : Z.

Local Abbreviation dispatch :=
  (DoResponse OpenAIErrorWrapper json_Unmarshal json_Marshal GetTimestamp
     GeminiTextGenerationStreamHandler GeminiTextGenerationHandler
     GeminiEmbeddingHandler GeminiChatStreamHandler GeminiChatHandler
     RelayModeGemini).

(** X6: outside the native relay mode the dispatcher and the endpoint
    resolver agree on every model name: the image handler answers what
    went to ":predict", the embedding handler what went to
    ":embedContent", and the streaming and plain chat handlers, whose
    results come back error first and are swapped, what went to the two
    generation actions. *)
Theorem DoResponse_follows_action (c : Context) (resp : Response) (relayMode : Z)
    (info : RelayInfo) :
  relayMode <> RelayModeGemini ->
  (spec_action (UpstreamModelName info) (IsStream info) = "predict" ->
   dispatch c resp relayMode info
   = GeminiImageHandler OpenAIErrorWrapper json_Unmarshal json_Marshal GetTimestamp
       c resp info)
  /\ (spec_action (UpstreamModelName info) (IsStream info) = "embedContent" ->
      dispatch c resp relayMode info = GeminiEmbeddingHandler c resp info)
  /\ (spec_action (UpstreamModelName info) (IsStream info) = "streamGenerateContent?alt=sse" ->
      dispatch c resp relayMode info
      = (let '((err, usage), effects) := GeminiChatStreamHandler c resp info in
         ((usage, err), effects)))
  /\ (spec_action (UpstreamModelName info) (IsStream info) = "generateContent" ->
      dispatch c resp relayMode info
      = (let '((err, usage), effects) := GeminiChatHandler c resp info in
         ((usage, err), effects))).
Proof.
  intros Hmode. unfold DoResponse, spec_action.
  apply Z.eqb_neq in Hmode. rewrite Hmode.
  destruct (strings.HasPrefix (UpstreamModelName info) "imagen");
    [repeat split; (reflexivity || discriminate)|].
  destruct (strings.HasPrefix (UpstreamModelName info) "text-embedding");
    [repeat split; (reflexivity || discriminate)|].
  destruct (strings.HasPrefix (UpstreamModelName info) "embedding");
    [repeat split; (reflexivity || discriminate)|].
  destruct (strings.HasPrefix (UpstreamModelName info) "gemini-embedding");
    [repeat split; (reflexivity || discriminate)|].
  destruct (IsStream info); repeat split; (reflexivity || discriminate).
Qed.

(** In the native relay mode the model name plays no part. *)
Lemma DoResponse_native_ignores_model (c : Context) (resp : Response)
    (info : RelayInfo) :
  dispatch c resp RelayModeGemini info
  = if IsStream info then GeminiTextGenerationStreamHandler c resp info
    else GeminiTextGenerationHandler c resp info.
Proof. unfold DoResponse. rewrite Z.eqb_refl. reflexivity. Qed.

End Dispatch.

Lemma DoResponse_follows_action_witness :
  DoResponse sampleWrapper (sampleUnmarshal [imagePrediction "QUJD"]) sampleMarshal
    1700000000
    (fun _ _ _ => ((None, None), [])) (fun _ _ _ => ((None, None), []))
    (fun _ _ _ => ((None, None), [])) (fun _ _ _ => ((None, None), []))
    (fun _ _ _ => ((None, None), [])) 5 tt sampleResponse 1
    (sampleInfo "imagen-3" false)
  = GeminiImageHandler sampleWrapper (sampleUnmarshal [imagePrediction "QUJD"])
      sampleMarshal 1700000000 tt sampleResponse (sampleInfo "imagen-3" false).
Proof.
  apply (DoResponse_follows_action unit (string * string * Z) sampleWrapper
           (sampleUnmarshal [imagePrediction "QUJD"]) sampleMarshal 1700000000
           (fun _ _ _ => ((None, None), [])) (fun _ _ _ => ((None, None), []))
           (fun _ _ _ => ((None, None), [])) (fun _ _ _ => ((None, None), []))
           (fun _ _ _ => ((None, None), [])) 5 tt sampleResponse 1
           (sampleInfo "imagen-3" false)).
  - discriminate.
  - reflexivity.
Defined.

(** ** More on the image response handler *)

Section ImageHandlerMore.

Variable Context : Type.
Variable OpenAIErrorWithStatusCode : Type.
Variable OpenAIErrorWrapper : error -> string -> Z -> OpenAIErrorWithStatusCode.
Variable json_Unmarshal : string -> GeminiImageResponse * option error.
Variable json_Marshal : ImageResponse -> string * option error.
Variable GetTimestamp : Z.

Local Abbreviation handler :=
  (GeminiImageHandler OpenAIErrorWrapper json_Unmarshal json_Marshal GetTimestamp).

(** X7: the handler returns a usage record or an error, never both and
    never neither; the inbound body is closed exactly when it could be
    read; on an error nothing is sent to the client; on success the client
    gets the content type, the upstream status code and one body, in that
    order. *)
Theorem GeminiImageHandler_result_shape (c : Context) (resp : Response)
    (info : RelayInfo) :
  (is_Some (fst (fst (handler c resp info))) <-> snd (fst (handler c resp info)) = None)
  /\ (BodyClose ∈ snd (handler c resp info) <-> snd (Body resp) = None)
  /\ (is_Some (snd (fst (handler c resp info))) ->
      forall e, e ∈ snd (handler c resp info) -> e = BodyClose)
  /\ (snd (fst (handler c resp info)) = None ->
      exists jsonResponse,
        snd (handler c resp info)
        = [BodyClose; HeaderSet "Content-Type" "application/json";
           WriteHeader (StatusCode resp); Write jsonResponse]).
Proof.
  unfold GeminiImageHandler.
  assert (Herr : forall (e : OpenAIErrorWithStatusCode) (effects : list effect)
                   (P : Prop),
             (forall x, x ∈ effects -> x = BodyClose) ->
             (BodyClose ∈ effects <-> P) ->
             (is_Some (@None Usage) <-> Some e = None)
             /\ (BodyClose ∈ effects <-> P)
             /\ (is_Some (Some e) -> forall x, x ∈ effects -> x = BodyClose)
             /\ (Some e = None ->
                 exists jsonResponse,
                   effects = [BodyClose; HeaderSet "Content-Type" "application/json";
                              WriteHeader (StatusCode resp); Write jsonResponse])).
  { intros e effects P Hall Hclose. split; [|split; [exact Hclose|split]].
    - split; [intros [? H]; discriminate H | discriminate].
    - intros _. exact Hall.
    - discriminate. }
  destruct (Body resp) as [responseBody [readErr|]]; simpl.
  { apply Herr; [intros x H; inversion H|].
    split; [intros H; inversion H | discriminate]. }
  assert (Hall : forall x, x ∈ [BodyClose] -> x = BodyClose)
    by (intros x H; apply list_elem_of_singleton in H; exact H).
  assert (Hclose : BodyClose ∈ [BodyClose] <-> @None error = None)
    by (split; intros _; [reflexivity | apply list_elem_of_here]).
  destruct (json_Unmarshal responseBody) as [geminiResponse [jsonErr|]]; simpl.
  { apply Herr; assumption. }
  destruct (length (Predictions geminiResponse) =? 0)%nat; simpl.
  { apply Herr; assumption. }
  destruct (json_Marshal _) as [jsonResponse [marshalErr|]]; simpl.
  { apply Herr; assumption. }
  split; [split; eauto|].
  split; [split; intros _; [reflexivity | apply list_elem_of_here]|].
  split; [intros [? H]; discriminate H | eauto].
Qed.

(** X8: on success the body sent is the marshalled response that holds,
    in the vendor's order, the base64 payload of each prediction without
    a filter reason, stamped with the current time; and the usage charged
    is a multiple of 258 that never exceeds 258 per prediction received. *)
Theorem GeminiImageHandler_sends_surviving (c : Context) (resp : Response)
    (info : RelayInfo) (body : string) (geminiResponse : GeminiImageResponse)
    (usage : Usage) :
  Body resp = (body, None) ->
  json_Unmarshal body = (geminiResponse, None) ->
  fst (handler c resp info) = (Some usage, None) ->
  snd (handler c resp info)
  = [BodyClose; HeaderSet "Content-Type" "application/json";
     WriteHeader (StatusCode resp);
     Write (fst (json_Marshal
                   {| Created := GetTimestamp;
                      ImageResponse_Data :=
                        toImageData <$> surviving (Predictions geminiResponse) |}))]
  /\ TotalTokens usage = 258 * Z.of_nat (length (surviving (Predictions geminiResponse)))
  /\ 0 <= TotalTokens usage <= 258 * Z.of_nat (length (Predictions geminiResponse)).
Proof.
  intros Hbody Hjson. unfold GeminiImageHandler. rewrite Hbody, Hjson.
  destruct (length (Predictions geminiResponse) =? 0)%nat; [discriminate|].
  rewrite rangePredictions_surviving, app_nil_l.
  destruct (json_Marshal _) as [jsonResponse [marshalErr|]]; [discriminate|].
  cbn [fst snd ImageResponse_Data]. intros H. injection H as <-.
  cbn [TotalTokens]. rewrite length_fmap. split; [reflexivity|]. split; [reflexivity|].
  unfold imageTokens, surviving.
  pose proof (length_filter (fun p => RaiFilteredReason p = "")
                (Predictions geminiResponse)). lia.
Qed.

End ImageHandlerMore.

Lemma GeminiImageHandler_result_shape_witness :
  exists jsonResponse,
    snd (GeminiImageHandler sampleWrapper (sampleUnmarshal [imagePrediction "QUJD"])
           sampleMarshal 1700000000 tt sampleResponse (sampleInfo "imagen-3" false))
    = [BodyClose; HeaderSet "Content-Type" "application/json";
       WriteHeader (StatusCode sampleResponse); Write jsonResponse].
Proof.
  apply (GeminiImageHandler_result_shape unit (string * string * Z) sampleWrapper
           (sampleUnmarshal [imagePrediction "QUJD"]) sampleMarshal 1700000000
           tt sampleResponse (sampleInfo "imagen-3" false)).
  reflexivity.
Defined.

Lemma GeminiImageHandler_sends_surviving_witness :
  snd (GeminiImageHandler sampleWrapper
         (sampleUnmarshal [imagePrediction "QUJD"; filteredPrediction])
         sampleMarshal 1700000000 tt sampleResponse (sampleInfo "imagen-3" false))
  = [BodyClose; HeaderSet "Content-Type" "application/json";
     WriteHeader (StatusCode sampleResponse);
     Write (fst (sampleMarshal
                   {| Created := 1700000000;
                      ImageResponse_Data :=
                        toImageData <$> surviving [imagePrediction "QUJD";
                                                   filteredPrediction] |}))]
  /\ TotalTokens {| PromptTokens := 258; CompletionTokens := 0; TotalTokens := 258 |}
     = 258 * Z.of_nat (length (surviving [imagePrediction "QUJD"; filteredPrediction]))
  /\ 0 <= TotalTokens {| PromptTokens := 258; CompletionTokens := 0; TotalTokens := 258 |}
     <= 258 * Z.of_nat (length [imagePrediction "QUJD"; filteredPrediction]).
Proof.
  apply (GeminiImageHandler_sends_surviving unit (string * string * Z) sampleWrapper
           (sampleUnmarshal [imagePrediction "QUJD"; filteredPrediction])
           sampleMarshal 1700000000 tt sampleResponse (sampleInfo "imagen-3" false)
           "{}" {| Predictions := [imagePrediction "QUJD"; filteredPrediction] |}
           {| PromptTokens := 258; CompletionTokens := 0; TotalTokens := 258 |}).
  - reflexivity.
  - reflexivity.
  - reflexivity.
Defined.

(** ** More on the part and content encoder *)

Section EncoderMore.

Variable DecodeBase64FileData : string -> string * string * option error.
Variable GetFileBase64FromUrl : string -> option FileData * option error.

Local Abbreviation range :=
  (rangeMediaContents DecodeBase64FileData GetFileBase64FromUrl).
Local Abbreviation encode :=
  (openAIMessageContentToGeminiParts DecodeBase64FileData GetFileBase64FromUrl).

Lemma range_text_step (item : any) (s : string) (rest : list any)
    (parts : list GeminiPart) :
  isTextItemOf item s ->
  range (item :: rest) parts = range rest (parts ++ [textPart s]).
Proof.
  intros (m & -> & Hty & Htext). simpl. unfold mapIndex. rewrite Hty, Htext.
  reflexivity.
Qed.

Lemma range_skip_step (item : any) (rest : list any) (parts : list GeminiPart) :
  skippedItem item = true -> range (item :: rest) parts = range rest parts.
Proof.
  intros H. destruct item as [| | | | |m]; try reflexivity.
  simpl in H |- *. apply andb_true_iff in H as [H1 H2].
  apply negb_true_iff in H1, H2. rewrite H1, H2. reflexivity.
Qed.

(** Once the loop has stopped on an error or a panic, later items do not
    matter. *)
Lemma rangeMediaContents_app_stop (pre rest : list any) :
  forall parts : list GeminiPart,
    (forall parts', range pre parts <> Returns (parts', None)) ->
    range (pre ++ rest) parts = range pre parts.
Proof.
  induction pre as [|item pre IH]; intros parts H.
  - exfalso. exact (H parts eq_refl).
  - simpl in H |- *.
    destruct item as [| | | | |mediaMap]; try (apply IH; exact H).
    destruct (anyEqString (mapIndex mediaMap "type") "text").
    { destruct (assertString (mapIndex mediaMap "text")); simpl in H |- *;
        [apply IH; exact H | reflexivity]. }
    destruct (anyEqString (mapIndex mediaMap "type") "image_url");
      [| apply IH; exact H].
    destruct (assertString (mapIndex (assertMapOk (mapIndex mediaMap "image_url")) "url"))
      as [url|]; simpl in H |- *; [| reflexivity].
    destruct (DecodeBase64FileData url) as [[format base64] [decodeErr|]];
      [| apply IH; exact H].
    destruct (GetFileBase64FromUrl url) as [fileData [fetchErr|]]; [reflexivity|].
    destruct fileData; simpl in H |- *; [apply IH; exact H | reflexivity].
Qed.

Lemma range_text_items (items : list any) (texts : list string) :
  Forall2 isTextItemOf items texts ->
  forall parts, range items parts = Returns (parts ++ (textPart <$> texts), None).
Proof.
  induction 1 as [|item s items texts Hitem _ IH]; intros parts.
  - simpl. rewrite app_nil_r. reflexivity.
  - rewrite (range_text_step item s items parts Hitem), IH, <- app_assoc.
    reflexivity.
Qed.

(** X9: a list of well-formed text items converts to their texts as text
    parts, one for one and in order, for every decode and fetch
    collaborator. *)
Theorem text_items_in_order (items : list any) (texts : list string) :
  Forall2 isTextItemOf items texts ->
  encode (AnySlice items) = Returns (textPart <$> texts, None).
Proof. intros H. exact (range_text_items items texts H []). Qed.

(** X10: an item that is no map, or whose type is neither "text" nor
    "image_url", is dropped silently: the conversion gives what it gives
    without the item, errors and panics included. *)
Theorem skipped_item_dropped (pre rest : list any) (item : any) :
  skippedItem item = true ->
  encode (AnySlice (pre ++ item :: rest)) = encode (AnySlice (pre ++ rest)).
Proof.
  intros Hskip. unfold openAIMessageContentToGeminiParts.
  destruct (range pre []) as [[parts' [err|]]|msg] eqn:Hpre.
  - rewrite !rangeMediaContents_app_stop; [reflexivity | |];
      intros parts''; rewrite Hpre; discriminate.
  - rewrite !(rangeMediaContents_app _ _ pre _ [] parts' Hpre).
    apply range_skip_step, Hskip.
  - rewrite !rangeMediaContents_app_stop; [reflexivity | |];
      intros parts''; rewrite Hpre; discriminate.
Qed.

Lemma range_image_step (item : any) (url : string) (rest : list any)
    (parts : list GeminiPart) :
  isImageItemOf item url ->
  range (item :: rest) parts
  = (let '(format, base64, err) := DecodeBase64FileData url in
     match err with
     | Some _ =>
         let '(fileData, err) := GetFileBase64FromUrl url in
         match err with
         | Some err => Returns ([], Some err)
         | None =>
             fileData ← deref fileData;
             range rest (parts ++ [inlinePart (FileData_MimeType fileData)
                                     (Base64Data fileData)])
         end
     | None => range rest (parts ++ [inlinePart format base64])
     end).
Proof.
  intros (m & mi & -> & Hty & Himg & Hurl). simpl. unfold mapIndex.
  rewrite Hty. simpl. rewrite Himg. simpl. rewrite Hurl. reflexivity.
Qed.

(** X11: how an image item is resolved, once the loop reaches it.  A URL
    that decodes as inline data gives an inline part with the decoded
    format and data; one that does not decode and is fetched gives an
    inline part with the fetched MIME type and data; when it does not
    decode and the fetch fails, the whole conversion ends with the fetch
    error and no parts, those already built included. *)
Theorem image_url_resolution (pre rest : list any) (item : any) (url : string)
    (parts : list GeminiPart) :
  isImageItemOf item url ->
  range pre [] = Returns (parts, None) ->
  (forall format base64,
      DecodeBase64FileData url = (format, base64, None) ->
      encode (AnySlice (pre ++ item :: rest))
      = range rest (parts ++ [inlinePart format base64]))
  /\ (forall format base64 decodeErr fileData,
        DecodeBase64FileData url = (format, base64, Some decodeErr) ->
        GetFileBase64FromUrl url = (Some fileData, None) ->
        encode (AnySlice (pre ++ item :: rest))
        = range rest (parts ++ [inlinePart (FileData_MimeType fileData)
                                  (Base64Data fileData)]))
  /\ (forall format base64 decodeErr fileData fetchErr,
        DecodeBase64FileData url = (format, base64, Some decodeErr) ->
        GetFileBase64FromUrl url = (fileData, Some fetchErr) ->
        encode (AnySlice (pre ++ item :: rest)) = Returns ([], Some fetchErr)).
Proof.
  intros Hitem Hpre. unfold openAIMessageContentToGeminiParts.
  rewrite (rangeMediaContents_app _ _ pre (item :: rest) [] parts Hpre).
  rewrite (range_image_step item url rest parts Hitem).
  repeat split.
  - intros format base64 ->. reflexivity.
  - intros format base64 decodeErr fileData -> ->. reflexivity.
  - intros format base64 decodeErr fileData fetchErr -> ->. reflexivity.
Qed.

Lemma range_invariant (items : list any) :
  forall parts parts' : list GeminiPart,
    range items parts = Returns (parts', None) ->
    Forall oneVariant parts ->
    Forall oneVariant parts'
    /\ (length parts' <= length parts + length items)%nat.
Proof.
  assert (Hsnoc : forall (parts : list GeminiPart) part,
             Forall oneVariant parts -> oneVariant part ->
             Forall oneVariant (parts ++ [part])).
  { intros parts part Hp Hq. apply Forall_app. split; [exact Hp|].
    apply Forall_cons. split; [exact Hq | apply Forall_nil_2]. }
  induction items as [|item items IH]; intros parts parts' H Hinv.
  - injection H as <-. split; [exact Hinv | simpl; lia].
  - assert (Hnext : forall acc,
               range items acc = Returns (parts', None) ->
               Forall oneVariant acc ->
               (length acc <= S (length parts))%nat ->
               Forall oneVariant parts'
               /\ (length parts' <= length parts + length (item :: items))%nat).
    { intros acc Hacc Hf Hlen. destruct (IH acc parts' Hacc Hf) as [H1 H2].
      split; [exact H1 | simpl; lia]. }
    simpl in H.
    destruct item as [| | | | |mediaMap];
      try (apply (Hnext parts H Hinv); lia).
    destruct (anyEqString (mapIndex mediaMap "type") "text").
    { destruct (assertString (mapIndex mediaMap "text")) as [text|]; simpl in H;
        [|discriminate H].
      apply (Hnext _ H); [| rewrite length_app; simpl; lia].
      apply Hsnoc; [exact Hinv | right; reflexivity]. }
    destruct (anyEqString (mapIndex mediaMap "type") "image_url");
      [| apply (Hnext parts H Hinv); lia].
    destruct (assertString (mapIndex (assertMapOk (mapIndex mediaMap "image_url")) "url"))
      as [url|]; simpl in H; [| discriminate H].
    destruct (DecodeBase64FileData url) as [[format base64] [decodeErr|]].
    + destruct (GetFileBase64FromUrl url) as [fileData [fetchErr|]]; [discriminate H|].
      destruct fileData as [fileData|]; simpl in H; [|discriminate H].
      apply (Hnext _ H); [| rewrite length_app; simpl; lia].
      apply Hsnoc; [exact Hinv | left; reflexivity].
    + apply (Hnext _ H); [| rewrite length_app; simpl; lia].
      apply Hsnoc; [exact Hinv | left; reflexivity].
Qed.

(** X12: whatever the content and the collaborators, the parts of a
    successful conversion each populate at most one variant, text or
    inline data, and a list of items never gives more parts than it has
    items. *)
Theorem encoder_parts_invariant (content : any) (parts : list GeminiPart) :
  encode content = Returns (parts, None) ->
  Forall oneVariant parts
  /\ (forall items, content = AnySlice items -> (length parts <= length items)%nat).
Proof.
  unfold openAIMessageContentToGeminiParts. intros H.
  destruct content as [| s | | | items |]; try discriminate H.
  - injection H as <-. split; [|intros items Hc; discriminate Hc].
    apply Forall_cons. split; [right; reflexivity | apply Forall_nil_2].
  - destruct (range_invariant items [] parts H (Forall_nil_2 _)) as [H1 H2].
    split; [exact H1|]. intros items' Hc. injection Hc as <-. exact H2.
Qed.

(** X13: a message converts to a content or to an error, never to both
    and never to neither; the content's role is the message's role with
    "assistant" replaced by "model", so it is never "assistant". *)
Theorem message_conversion_shape (message : Message) :
  match openAIMessageToGeminiContent DecodeBase64FileData GetFileBase64FromUrl message with
  | Returns (Some content, err) =>
      err = None
      /\ Role content = mapRole (Message_Role message)
      /\ Role content <> "assistant"
  | Returns (None, err) => is_Some err
  | Panics _ => True
  end.
Proof.
  unfold openAIMessageToGeminiContent.
  destruct (encode (Message_Content message)) as [[parts [err|]]|msg]; simpl; eauto.
  split; [reflexivity|]. split; [reflexivity|].
  unfold mapRole. destruct (String.eqb_spec (Message_Role message) "assistant");
    [discriminate | assumption].
Qed.

(** X14: a content that is neither a string nor a list (nil, a bool, a
    number, an object) is refused with "unsupported message content
    format", and the message converts to no content. *)
Theorem unsupported_content_refused (message : Message) :
  (forall s, Message_Content message <> AnyString s) ->
  (forall items, Message_Content message <> AnySlice items) ->
  encode (Message_Content message)
  = Returns ([], Some (errors.New "unsupported message content format"))
  /\ openAIMessageToGeminiContent DecodeBase64FileData GetFileBase64FromUrl message
     = Returns (None, Some (errors.New "unsupported message content format")).
Proof.
  intros Hs Hl. unfold openAIMessageToGeminiContent, openAIMessageContentToGeminiParts.
  destruct (Message_Content message) as [| s | | | items |];
    try (split; reflexivity).
  - exfalso. exact (Hs s eq_refl).
  - exfalso. exact (Hl items eq_refl).
Qed.

End EncoderMore.

Lemma isTextItemOf_textItem (s : string) : isTextItemOf (textItem s) s.
Proof.
  exists (<["type" := AnyString "text"]> (<["text" := AnyString s]> ∅)).
  split; [reflexivity|]. split.
  - apply lookup_insert_eq.
  - rewrite lookup_insert_ne by discriminate. apply lookup_insert_eq.
Qed.

Lemma isImageItemOf_imageItem (url : string) : isImageItemOf (imageItem url) url.
Proof.
  eexists _, _. split; [reflexivity|]. split; [apply lookup_insert_eq|]. split.
  - rewrite lookup_insert_ne by discriminate. apply lookup_insert_eq.
  - apply lookup_insert_eq.
Qed.

Lemma text_items_in_order_witness :
  openAIMessageContentToGeminiParts sampleDecode sampleFetch
    (AnySlice [textItem "a"; textItem "b"])
  = Returns (textPart <$> ["a"; "b"], None).
Proof.
  apply (text_items_in_order sampleDecode sampleFetch
           [textItem "a"; textItem "b"] ["a"; "b"]).
  repeat (apply Forall2_cons; split; [apply isTextItemOf_textItem|]).
  apply Forall2_nil_2.
Defined.

Lemma skipped_item_dropped_witness :
  openAIMessageContentToGeminiParts sampleDecode sampleFetch
    (AnySlice ([textItem "a"] ++ AnyString "stray" :: [textItem "b"]))
  = openAIMessageContentToGeminiParts sampleDecode sampleFetch
      (AnySlice ([textItem "a"] ++ [textItem "b"])).
Proof.
  apply (skipped_item_dropped sampleDecode sampleFetch
           [textItem "a"] [textItem "b"] (AnyString "stray")).
  reflexivity.
Defined.

Lemma image_url_resolution_witness :
  openAIMessageContentToGeminiParts sampleDecode sampleFetch
    (AnySlice ([textItem "a"] ++ imageItem "https://example.com/cat.png" :: [textItem "b"]))
  = Returns ([], Some (errors.New "fetch failed")).
Proof.
  apply (image_url_resolution sampleDecode sampleFetch
           [textItem "a"] [textItem "b"] (imageItem "https://example.com/cat.png")
           "https://example.com/cat.png" [textPart "a"]
           (isImageItemOf_imageItem _))
    with (format := "") (base64 := "") (decodeErr := errors.New "invalid base64 data")
         (fileData := None).
  - vm_compute. reflexivity.
  - reflexivity.
  - reflexivity.
Defined.

Lemma encoder_parts_invariant_witness :
  Forall oneVariant [textPart "a"; inlinePart "image/png" "QUJD"]
  /\ (forall items,
        AnySlice [textItem "a"; imageItem "data:image/png;base64,QUJD"] = AnySlice items ->
        (length [textPart "a"; inlinePart "image/png" "QUJD"] <= length items)%nat).
Proof.
  apply (encoder_parts_invariant sampleDecodeOk sampleFetch
           (AnySlice [textItem "a"; imageItem "data:image/png;base64,QUJD"])
           [textPart "a"; inlinePart "image/png" "QUJD"]).
  vm_compute. reflexivity.
Defined.

Lemma unsupported_content_refused_witness :
  openAIMessageContentToGeminiParts sampleDecode sampleFetch
    (Message_Content {| Message_Role := "user"; Message_Content := AnyFloat64 0 |})
  = Returns ([], Some (errors.New "unsupported message content format"))
  /\ openAIMessageToGeminiContent sampleDecode sampleFetch
       {| Message_Role := "user"; Message_Content := AnyFloat64 0 |}
     = Returns (None, Some (errors.New "unsupported message content format")).
Proof.
  apply (unsupported_content_refused sampleDecode sampleFetch
           {| Message_Role := "user"; Message_Content := AnyFloat64 0 |});
    intros ?; discriminate.
Defined.

(** ** The instruction-style converter *)

Section Responses.

Variable Context : Type.
Variable FunctionRequest : Type.
Variable DecodeBase64FileData : string -> string * string * option error.
Variable GetFileBase64FromUrl : string -> option FileData * option error.
Variable json_Unmarshal_string : string -> string * option error.
Variable json_Unmarshal_messages : string -> list Message * option error.
Variable json_Unmarshal_function : string -> FunctionRequest * option error.

Local Abbreviation rangeMessages :=
  (rangeInputMessages DecodeBase64FileData GetFileBase64FromUrl).
Local Abbreviation convert :=
  (ConvertOpenAIResponsesRequest DecodeBase64FileData GetFileBase64FromUrl
     json_Unmarshal_string json_Unmarshal_messages json_Unmarshal_function).
Local Abbreviation toContent :=
  (openAIMessageToGeminiContent DecodeBase64FileData GetFileBase64FromUrl).

Lemma rangeInputMessages_roles (messages : list Message) :
  forall contents contents' : list GeminiChatContent,
    rangeMessages messages contents = Returns (contents', None) ->
    Role <$> contents'
    = (Role <$> contents) ++ (mapRole <$> (Message_Role <$> messages)).
Proof.
  induction messages as [|message messages IH]; intros contents contents' H.
  - injection H as <-. simpl. rewrite app_nil_r. reflexivity.
  - simpl in H.
    pose proof (message_conversion_shape DecodeBase64FileData GetFileBase64FromUrl
                  message) as Hshape.
    destruct (toContent message) as [[[content|] [err|]]|msg]; simpl in H;
      try discriminate H.
    rewrite (IH _ _ H), fmap_app, <- app_assoc. simpl.
    destruct Hshape as (_ & -> & _). reflexivity.
Qed.

Lemma rangeInputMessages_app (pre rest : list Message) :
  forall contents contents' : list GeminiChatContent,
    rangeMessages pre contents = Returns (contents', None) ->
    rangeMessages (pre ++ rest) contents = rangeMessages rest contents'.
Proof.
  induction pre as [|message pre IH]; intros contents contents' H.
  - injection H as <-. reflexivity.
  - simpl in H |- *.
    destruct (toContent message) as [[[content|] [err|]]|msg]; simpl in H |- *;
      try discriminate H.
    apply IH. exact H.
Qed.

(** X15: when the input decodes and the conversion succeeds, the payload
    has one content per input message, in order, each with the message's
    role, "assistant" replaced by "model". *)
Theorem responses_contents_follow_messages (c : Context) (info : RelayInfo)
    (request : OpenAIResponsesRequest) (raw : string) (messages : list Message)
    (geminiRequest : GeminiChatRequest FunctionRequest) :
  Responses_Input request = Some raw ->
  json_Unmarshal_messages raw = (messages, None) ->
  convert c info request = Returns (Some geminiRequest, None) ->
  Role <$> Contents geminiRequest = mapRole <$> (Message_Role <$> messages)
  /\ length (Contents geminiRequest) = length messages.
Proof.
  intros Hin Hdec. unfold ConvertOpenAIResponsesRequest. rewrite Hin, Hdec.
  destruct (rangeMessages messages []) as [[contents [err|]]|msg] eqn:Hloop; simpl;
    try discriminate.
  intros H. injection H as <-. cbn [Contents].
  pose proof (rangeInputMessages_roles messages [] contents Hloop) as Hroles.
  simpl in Hroles. split; [exact Hroles|].
  apply (f_equal length) in Hroles. rewrite !length_fmap in Hroles. exact Hroles.
Qed.

(** X16: an input that is absent or does not decode is not an error: the
    conversion succeeds with no contents; and instructions that are
    absent or do not decode leave the payload without a system
    instruction. *)
Theorem responses_undecodable_fields_dropped (c : Context) (info : RelayInfo)
    (request : OpenAIResponsesRequest) :
  ((Responses_Input request = None
    \/ exists raw, Responses_Input request = Some raw
                   /\ is_Some (snd (json_Unmarshal_messages raw))) ->
   exists geminiRequest,
     convert c info request = Returns (Some geminiRequest, None)
     /\ Contents geminiRequest = [])
  /\ ((Responses_Instructions request = None
       \/ exists raw, Responses_Instructions request = Some raw
                      /\ is_Some (snd (json_Unmarshal_string raw))) ->
      forall geminiRequest,
        convert c info request = Returns (Some geminiRequest, None) ->
        SystemInstructions geminiRequest = None).
Proof.
  unfold ConvertOpenAIResponsesRequest. split.
  - intros [-> | (raw & -> & [e He])].
    + simpl. eexists. split; reflexivity.
    + destruct (json_Unmarshal_messages raw) as [messages err]. simpl in He. subst err.
      simpl. eexists. split; reflexivity.
  - intros Hins geminiRequest.
    assert (Hnone : match Responses_Instructions request with
                    | Some raw =>
                        let '(instructions, err) := json_Unmarshal_string raw in
                        match err with
                        | None => Some {| Role := "";
                                          Parts := [ {| Text := instructions;
                                                        InlineData := None |} ] |}
                        | Some _ => None
                        end
                    | None => None
                    end = None).
    { destruct Hins as [-> | (raw & -> & [e He])]; [reflexivity|].
      destruct (json_Unmarshal_string raw) as [instructions err]. simpl in He.
      subst err. reflexivity. }
    rewrite Hnone.
    destruct (match Responses_Input request with
              | Some raw =>
                  let '(inputMessages, err) := json_Unmarshal_messages raw in
                  match err with
                  | None => rangeMessages inputMessages []
                  | Some _ => mret ([], None)
                  end
              | None => mret ([], None)
              end) as [[contents [err|]]|msg]; simpl; try discriminate.
    intros H. injection H as <-. reflexivity.
Qed.

(** X17: the first message that does not convert ends the conversion:
    the result is that message's error and no payload, whatever was
    converted before it and whatever follows. *)
Theorem responses_bad_message_aborts (c : Context) (info : RelayInfo)
    (request : OpenAIResponsesRequest) (raw : string)
    (pre rest : list Message) (message : Message)
    (contents : list GeminiChatContent) (content : option GeminiChatContent)
    (err : error) :
  Responses_Input request = Some raw ->
  json_Unmarshal_messages raw = (pre ++ message :: rest, None) ->
  rangeMessages pre [] = Returns (contents, None) ->
  toContent message = Returns (content, Some err) ->
  convert c info request = Returns (None, Some err).
Proof.
  intros Hin Hdec Hpre Hbad. unfold ConvertOpenAIResponsesRequest.
  rewrite Hin, Hdec, (rangeInputMessages_app pre (message :: rest) [] contents Hpre).
  simpl. rewrite Hbad. reflexivity.
Qed.

Lemma rangeTools_invariant (requestTools : list ResponsesTool) :
  forall tools : list (GeminiChatTool FunctionRequest),
    Forall toolShape tools ->
    Forall toolShape (rangeTools json_Unmarshal_function requestTools tools)
    /\ (length (rangeTools json_Unmarshal_function requestTools tools)
        <= length tools + length requestTools)%nat
    /\ length (filter (fun tool => is_Some (GoogleSearch tool))
                 (rangeTools json_Unmarshal_function requestTools tools))
       = (length (filter (fun tool => is_Some (GoogleSearch tool)) tools)
          + length (filter (fun tool => ResponsesTool_Type tool = "web_search")
                      requestTools))%nat.
Proof.
  induction requestTools as [|tool requestTools IH]; intros tools Hshape.
  - simpl. split; [exact Hshape|]. split; lia.
  - simpl rangeTools. rewrite filter_cons.
    destruct (String.eqb_spec (ResponsesTool_Type tool) "web_search") as [Hweb|Hweb].
    + rewrite Hweb. change (String.eqb "web_search" "function") with false. cbv iota.
      rewrite decide_True by reflexivity.
      destruct (IH (tools ++ [ {| GoogleSearch := Some ∅; FunctionDeclarations := [] |} ]))
        as (H1 & H2 & H3).
      { apply Forall_app. split; [exact Hshape|].
        apply Forall_cons. split; [left; split; reflexivity | apply Forall_nil_2]. }
      split; [exact H1|]. rewrite H3, filter_app, !length_app in *.
      rewrite filter_cons, decide_True by (simpl; eauto). simpl in *. split; lia.
    + rewrite decide_False by exact Hweb.
      assert (Hstep : forall function,
                 Forall toolShape
                   (tools ++ [ {| GoogleSearch := None;
                                  FunctionDeclarations := [function] |} ])
                 /\ filter (fun tool : GeminiChatTool FunctionRequest =>
                              is_Some (GoogleSearch tool))
                      (tools ++ [ {| GoogleSearch := None;
                                     FunctionDeclarations := [function] |} ])
                    = filter (fun tool => is_Some (GoogleSearch tool)) tools).
      { intros function. split.
        - apply Forall_app. split; [exact Hshape|].
          apply Forall_cons. split; [right; split; eauto | apply Forall_nil_2].
        - rewrite filter_app, filter_cons, decide_False, filter_nil, app_nil_r;
            [reflexivity|]. simpl. intros [? H]. discriminate H. }
      destruct (String.eqb (ResponsesTool_Type tool) "function");
        [destruct (ResponsesTool_Function tool) as [rawFunction|];
         [destruct (json_Unmarshal_function rawFunction) as [function [err|]]|]|];
        try (destruct (IH tools Hshape) as (H1 & H2 & H3);
             split; [exact H1|]; simpl; split; lia).
      destruct (Hstep function) as [Hs Hf].
      destruct (IH _ Hs) as (H1 & H2 & H3).
      split; [exact H1|]. rewrite H3, Hf, length_app in *. simpl in *. split; lia.
Qed.

Lemma rangeTools_toolsOf (requestTools : list ResponsesTool) :
  forall tools : list (GeminiChatTool FunctionRequest),
    rangeTools json_Unmarshal_function requestTools tools
    = tools ++ (requestTools ≫= toolsOf json_Unmarshal_function).
Proof.
  induction requestTools as [|tool requestTools IH]; intros tools.
  - simpl. rewrite app_nil_r. reflexivity.
  - simpl rangeTools. rewrite IH. cbn [mbind list_bind]. unfold toolsOf at 2.
    destruct (String.eqb_spec (ResponsesTool_Type tool) "web_search") as [Hweb|Hweb].
    + rewrite Hweb. change (String.eqb "web_search" "function") with false. cbv iota.
      rewrite <- app_assoc. reflexivity.
    + destruct (String.eqb (ResponsesTool_Type tool) "function"); [|reflexivity].
      destruct (ResponsesTool_Function tool) as [rawFunction|]; [|reflexivity].
      destruct (json_Unmarshal_function rawFunction) as [function [err|]];
        [reflexivity|].
      rewrite <- app_assoc. reflexivity.
Qed.

(** X18: the tools of a converted payload are, in the order of the
    request, the search marker for each "web_search" tool and one
    declaration, the decoded one, for each "function" tool whose schema is
    present and decodes; a function without a schema, a schema that does
    not decode and any other type give nothing.  So each tool is the
    marker or a single declaration, there are never more of them than the
    request declared, and there are exactly as many markers as the request
    has "web_search" tools. *)
Theorem responses_tools_shape (c : Context) (info : RelayInfo)
    (request : OpenAIResponsesRequest)
    (geminiRequest : GeminiChatRequest FunctionRequest) :
  convert c info request = Returns (Some geminiRequest, None) ->
  Tools geminiRequest = Responses_Tools request ≫= toolsOf json_Unmarshal_function
  /\ Forall toolShape (Tools geminiRequest)
  /\ (length (Tools geminiRequest) <= length (Responses_Tools request))%nat
  /\ length (filter (fun tool => is_Some (GoogleSearch tool)) (Tools geminiRequest))
     = length (filter (fun tool => ResponsesTool_Type tool = "web_search")
                 (Responses_Tools request)).
Proof.
  unfold ConvertOpenAIResponsesRequest.
  destruct (match Responses_Input request with
            | Some raw =>
                let '(inputMessages, err) := json_Unmarshal_messages raw in
                match err with
                | None => rangeMessages inputMessages []
                | Some _ => mret ([], None)
                end
            | None => mret ([], None)
            end) as [[contents [err|]]|msg]; simpl; try discriminate.
  intros H. injection H as <-. cbn [Tools].
  destruct (rangeTools_invariant (Responses_Tools request) [] (Forall_nil_2 _))
    as (H1 & H2 & H3).
  split; [exact (rangeTools_toolsOf (Responses_Tools request) [])|].
  split; [exact H1|]. split; [exact H2 | exact H3].
Qed.

End Responses.

Lemma responses_contents_follow_messages_witness :
  Role <$> Contents
             {| Contents := [ {| Role := "user"; Parts := [textPart "hi"] |};
                              {| Role := "model"; Parts := [textPart "hello"] |} ];
                GenerationConfig :=
                  {| Temperature := Some 0%N; TopP := 0%N; MaxOutputTokens := 1024 |};
                SystemInstructions := None;
                Tools := @nil (GeminiChatTool string) |}
  = mapRole <$> (Message_Role <$>
                   [ {| Message_Role := "user"; Message_Content := AnyString "hi" |};
                     {| Message_Role := "assistant";
                        Message_Content := AnyString "hello" |} ])
  /\ length (Contents
               {| Contents := [ {| Role := "user"; Parts := [textPart "hi"] |};
                                {| Role := "model"; Parts := [textPart "hello"] |} ];
                  GenerationConfig :=
                    {| Temperature := Some 0%N; TopP := 0%N; MaxOutputTokens := 1024 |};
                  SystemInstructions := None;
                  Tools := @nil (GeminiChatTool string) |})
     = length [ {| Message_Role := "user"; Message_Content := AnyString "hi" |};
                {| Message_Role := "assistant"; Message_Content := AnyString "hello" |} ].
Proof.
  apply (responses_contents_follow_messages unit string sampleDecode sampleFetch
           sampleUnmarshalString
           (sampleUnmarshalMessages
              [ {| Message_Role := "user"; Message_Content := AnyString "hi" |};
                {| Message_Role := "assistant"; Message_Content := AnyString "hello" |} ])
           sampleUnmarshalFunction tt (sampleInfo "gemini-pro" false)
           (sampleResponsesRequest (Some "[]") []) "[]").
  - reflexivity.
  - reflexivity.
  - reflexivity.
Defined.

Lemma responses_undecodable_fields_dropped_witness :
  exists geminiRequest : GeminiChatRequest string,
    ConvertOpenAIResponsesRequest sampleDecode sampleFetch sampleUnmarshalString
      (sampleUnmarshalFails []) sampleUnmarshalFunction tt (sampleInfo "gemini-pro" false)
      (sampleResponsesRequest (Some "not json") [])
    = Returns (Some geminiRequest, None)
    /\ Contents geminiRequest = [].
Proof.
  apply (proj1 (responses_undecodable_fields_dropped unit string sampleDecode sampleFetch
                  sampleUnmarshalString (sampleUnmarshalFails [])
                  sampleUnmarshalFunction tt (sampleInfo "gemini-pro" false)
                  (sampleResponsesRequest (Some "not json") []))).
  right. exists "not json". split; [reflexivity|]. simpl. eauto.
Defined.

Lemma responses_bad_message_aborts_witness :
  ConvertOpenAIResponsesRequest (FunctionRequest := string) sampleDecode sampleFetch
    sampleUnmarshalString
    (sampleUnmarshalMessages
       [ {| Message_Role := "user"; Message_Content := AnyString "hi" |};
         {| Message_Role := "user"; Message_Content := AnyNil |};
         {| Message_Role := "user"; Message_Content := AnyString "more" |} ])
    sampleUnmarshalFunction tt (sampleInfo "gemini-pro" false)
    (sampleResponsesRequest (Some "[]") [])
  = Returns (None, Some (errors.New "unsupported message content format")).
Proof.
  apply (responses_bad_message_aborts unit string sampleDecode sampleFetch
           sampleUnmarshalString
           (sampleUnmarshalMessages
              [ {| Message_Role := "user"; Message_Content := AnyString "hi" |};
                {| Message_Role := "user"; Message_Content := AnyNil |};
                {| Message_Role := "user"; Message_Content := AnyString "more" |} ])
           sampleUnmarshalFunction tt (sampleInfo "gemini-pro" false)
           (sampleResponsesRequest (Some "[]") []) "[]"
           [ {| Message_Role := "user"; Message_Content := AnyString "hi" |} ]
           [ {| Message_Role := "user"; Message_Content := AnyString "more" |} ]
           {| Message_Role := "user"; Message_Content := AnyNil |}
           [ {| Role := "user"; Parts := [textPart "hi"] |} ] None
           (errors.New "unsupported message content format")).
  - reflexivity.
  - reflexivity.
  - reflexivity.
  - reflexivity.
Defined.

Lemma responses_tools_shape_witness :
  [ {| GoogleSearch := Some ∅; FunctionDeclarations := @nil string |};
    {| GoogleSearch := None; FunctionDeclarations := ["{}"] |} ]
  = [ {| ResponsesTool_Type := "web_search"; ResponsesTool_Function := None |};
      {| ResponsesTool_Type := "code_interpreter"; ResponsesTool_Function := None |};
      {| ResponsesTool_Type := "function"; ResponsesTool_Function := Some "{}" |} ]
    ≫= toolsOf sampleUnmarshalFunction
  /\ Forall toolShape
    [ {| GoogleSearch := Some ∅; FunctionDeclarations := @nil string |};
      {| GoogleSearch := None; FunctionDeclarations := ["{}"] |} ]
  /\ (length [ {| GoogleSearch := Some ∅; FunctionDeclarations := @nil string |};
               {| GoogleSearch := None; FunctionDeclarations := ["{}"] |} ]
      <= length [ {| ResponsesTool_Type := "web_search"; ResponsesTool_Function := None |};
                  {| ResponsesTool_Type := "code_interpreter";
                     ResponsesTool_Function := None |};
                  {| ResponsesTool_Type := "function";
                     ResponsesTool_Function := Some "{}" |} ])%nat
  /\ length (filter (fun tool => is_Some (GoogleSearch tool))
               [ {| GoogleSearch := Some ∅; FunctionDeclarations := @nil string |};
                 {| GoogleSearch := None; FunctionDeclarations := ["{}"] |} ])
     = length (filter (fun tool => ResponsesTool_Type tool = "web_search")
                 [ {| ResponsesTool_Type := "web_search"; ResponsesTool_Function := None |};
                   {| ResponsesTool_Type := "code_interpreter";
                      ResponsesTool_Function := None |};
                   {| ResponsesTool_Type := "function";
                      ResponsesTool_Function := Some "{}" |} ]).
Proof.
  apply (responses_tools_shape unit string sampleDecode sampleFetch
           sampleUnmarshalString (sampleUnmarshalMessages []) sampleUnmarshalFunction
           tt (sampleInfo "gemini-pro" false)
           (sampleResponsesRequest None
              [ {| ResponsesTool_Type := "web_search"; ResponsesTool_Function := None |};
                {| ResponsesTool_Type := "code_interpreter";
                   ResponsesTool_Function := None |};
                {| ResponsesTool_Type := "function";
                   ResponsesTool_Function := Some "{}" |} ])
           {| Contents := [];
              GenerationConfig :=
                {| Temperature := Some 0%N; TopP := 0%N; MaxOutputTokens := 1024 |};
              SystemInstructions := None;
              Tools := [ {| GoogleSearch := Some ∅; FunctionDeclarations := @nil string |};
                         {| GoogleSearch := None; FunctionDeclarations := ["{}"] |} ] |}).
  reflexivity.
Defined.

(** ** The remaining converters and the request header *)

Section Converters.

Variable Context : Type.
Variable FunctionRequest : Type.
Variable GeneralOpenAIRequest : Type.
Variable ClaudeRequest : Type.
Variable VendorChatRequest : Type.
Variable gemini_ConvertClaudeRequest :
  ClaudeRequest -> option VendorChatRequest * option error.
Variable CovertGemini2OpenAI :
  GeneralOpenAIRequest -> RelayInfo -> option VendorChatRequest * option error.
Variable ParseInput : EmbeddingRequest -> list string.
Variable DecodeBase64FileData : string -> string * string * option error.
Variable json_Marshal_chat : GeminiChatRequest FunctionRequest -> string * option error.
Variable CanonicalMIMEHeaderKey : string -> string.
Variable SetupApiRequestHeader : RelayInfo -> Context -> Header -> Header.

(** X19: no converter hands back a payload together with an error,
    whatever its collaborators return, a payload next to an error
    included. *)
Theorem converters_never_both (c : Context) (info : RelayInfo) :
  (forall request,
      ~ (is_Some (fst (ConvertClaudeRequest gemini_ConvertClaudeRequest c info request))
         /\ is_Some (snd (ConvertClaudeRequest gemini_ConvertClaudeRequest c info request))))
  /\ (forall request,
        ~ (is_Some (fst (ConvertOpenAIRequest CovertGemini2OpenAI c info request))
           /\ is_Some (snd (ConvertOpenAIRequest CovertGemini2OpenAI c info request))))
  /\ (forall request,
        ~ (is_Some (fst (ConvertAudioRequest DecodeBase64FileData json_Marshal_chat
                           c info request))
           /\ is_Some (snd (ConvertAudioRequest DecodeBase64FileData json_Marshal_chat
                              c info request))))
  /\ (forall request,
        ~ (is_Some (fst (ConvertImageRequest c info request))
           /\ is_Some (snd (ConvertImageRequest c info request))))
  /\ (forall request,
        ~ (is_Some (fst (ConvertEmbeddingRequest ParseInput c info request))
           /\ is_Some (snd (ConvertEmbeddingRequest ParseInput c info request)))).
Proof.
  assert (Hl : forall (A B : Type) (e : option B), ~ (is_Some (@None A) /\ is_Some e))
    by (intros A B e [[? H] _]; discriminate H).
  assert (Hr : forall (A B : Type) (a : option A), ~ (is_Some a /\ is_Some (@None B)))
    by (intros A B a [_ [? H]]; discriminate H).
  repeat split; intros request.
  - unfold ConvertClaudeRequest.
    destruct (gemini_ConvertClaudeRequest request) as [p [e|]]; simpl; auto.
  - unfold ConvertOpenAIRequest. destruct request as [request|]; simpl; auto.
    destruct (CovertGemini2OpenAI request info) as [p [e|]]; simpl; auto.
  - unfold ConvertAudioRequest.
    destruct (DecodeBase64FileData _) as [[format base64] [e|]]; simpl; auto.
    destruct (json_Marshal_chat _) as [jsonData [e|]]; simpl; auto.
  - unfold ConvertImageRequest.
    destruct (strings.HasPrefix _ _); simpl; auto.
  - unfold ConvertEmbeddingRequest.
    destruct (EmbeddingRequest_Input request); simpl; auto;
      destruct (ParseInput request); simpl; auto.
Qed.

(** A nil request is refused with "request is nil" before the chat
    converter is consulted; any other request gives what the chat
    converter gives, its payload being dropped when it comes with an
    error. *)
Lemma ConvertOpenAIRequest_nil_refused (c : Context) (info : RelayInfo) :
  ConvertOpenAIRequest CovertGemini2OpenAI c info None
  = (None, Some (errors.New "request is nil"))
  /\ (forall request,
        snd (ConvertOpenAIRequest CovertGemini2OpenAI c info (Some request))
        = snd (CovertGemini2OpenAI request info)
        /\ (snd (CovertGemini2OpenAI request info) = None ->
            fst (ConvertOpenAIRequest CovertGemini2OpenAI c info (Some request))
            = fst (CovertGemini2OpenAI request info))).
Proof.
  split; [reflexivity|]. intros request. unfold ConvertOpenAIRequest.
  destruct (CovertGemini2OpenAI request info) as [p [e|]]; simpl.
  - split; [reflexivity | discriminate].
  - split; reflexivity.
Qed.

(** X21: the audio converter.  An input that does not decode is refused
    with the decoder's message after "decode base64 audio data failed: ";
    one that decodes is marshalled as a single content of role "user"
    whose single part is inline data of MIME type "audio/" followed by
    the decoded format, and the bytes returned are the marshalled ones. *)
Theorem ConvertAudioRequest_payload (c : Context) (info : RelayInfo)
    (request : AudioRequest) (format base64String : string) :
  (forall decodeErr,
      DecodeBase64FileData (AudioRequest_Input request)
      = (format, base64String, Some decodeErr) ->
      ConvertAudioRequest DecodeBase64FileData json_Marshal_chat c info request
      = (None, Some (errors.New ("decode base64 audio data failed: "
                                 +:+ error_Error decodeErr))))
  /\ (forall jsonData,
        DecodeBase64FileData (AudioRequest_Input request)
        = (format, base64String, None) ->
        fst (ConvertAudioRequest DecodeBase64FileData json_Marshal_chat c info request)
        = Some jsonData ->
        exists geminiRequest,
          json_Marshal_chat geminiRequest = (jsonData, None)
          /\ Contents geminiRequest
             = [ {| Role := "user";
                    Parts := [inlinePart ("audio/" +:+ format) base64String] |} ]
          /\ SystemInstructions geminiRequest = None
          /\ Tools geminiRequest = []).
Proof.
  unfold ConvertAudioRequest. split.
  - intros decodeErr ->. reflexivity.
  - intros jsonData ->.
    destruct (json_Marshal_chat _) as [jsonData' [e|]] eqn:Hm; simpl; [discriminate|].
    intros H. injection H as <-. eexists. split; [exact Hm|].
    repeat split; reflexivity.
Qed.

(** X22: the embedding dimension.  A successful conversion forwards the
    requested dimension exactly when the model is "text-embedding-004"
    and the dimension is positive; for every other model, and for a
    dimension that is zero or negative, the field stays 0. *)
Theorem ConvertEmbeddingRequest_dimension (c : Context) (info : RelayInfo)
    (request : EmbeddingRequest) (geminiRequest : GeminiEmbeddingRequest) :
  ConvertEmbeddingRequest ParseInput c info request
  = (Some (EmbeddingPayload geminiRequest), None) ->
  (UpstreamModelName info = "text-embedding-004"
   /\ 0 < EmbeddingRequest_Dimensions request ->
   OutputDimensionality geminiRequest = EmbeddingRequest_Dimensions request)
  /\ (UpstreamModelName info <> "text-embedding-004"
      \/ EmbeddingRequest_Dimensions request <= 0 ->
      OutputDimensionality geminiRequest = 0)
  /\ 0 <= OutputDimensionality geminiRequest.
Proof.
  unfold ConvertEmbeddingRequest.
  assert (Hgo : forall inputs_0 : string,
             (Some (EmbeddingPayload
                (if String.eqb (UpstreamModelName info) "text-embedding-004"
                 then if 0 <? EmbeddingRequest_Dimensions request
                      then {| Content := {| Role := ""; Parts := [textPart inputs_0] |};
                              OutputDimensionality := EmbeddingRequest_Dimensions request |}
                      else {| Content := {| Role := ""; Parts := [textPart inputs_0] |};
                              OutputDimensionality := 0 |}
                 else {| Content := {| Role := ""; Parts := [textPart inputs_0] |};
                         OutputDimensionality := 0 |})), @None error)
             = (Some (EmbeddingPayload geminiRequest), None) ->
             (UpstreamModelName info = "text-embedding-004"
              /\ 0 < EmbeddingRequest_Dimensions request ->
              OutputDimensionality geminiRequest = EmbeddingRequest_Dimensions request)
             /\ (UpstreamModelName info <> "text-embedding-004"
                 \/ EmbeddingRequest_Dimensions request <= 0 ->
                 OutputDimensionality geminiRequest = 0)
             /\ 0 <= OutputDimensionality geminiRequest).
  { intros inputs_0.
    destruct (String.eqb_spec (UpstreamModelName info) "text-embedding-004") as [Hm|Hm];
      [destruct (Z.ltb_spec 0 (EmbeddingRequest_Dimensions request)) as [Hd|Hd]|];
      intros H; injection H as <-; simpl;
      (split; [intros [? ?] | split; [intros [?|?] |]]);
      first [reflexivity | lia | contradiction]. }
  destruct (EmbeddingRequest_Input request); try discriminate;
    (destruct (ParseInput request) as [|inputs_0 ?]; [discriminate | apply Hgo]).
Qed.

(** X23: after [SetupRequestHeader] the header answers the API key of
    the request under "x-goog-api-key", and under any key of the same
    canonical form, whatever the common header setup wrote there; every
    other header is as the common setup left it; and no error is
    returned. *)
Theorem SetupRequestHeader_api_key (c : Context) (req : Header) (info : RelayInfo) :
  snd (SetupRequestHeader CanonicalMIMEHeaderKey SetupApiRequestHeader c req info) = None
  /\ (forall key,
        CanonicalMIMEHeaderKey key = CanonicalMIMEHeaderKey "x-goog-api-key" ->
        Header_Get CanonicalMIMEHeaderKey
          (fst (SetupRequestHeader CanonicalMIMEHeaderKey SetupApiRequestHeader c req info))
          key
        = ApiKey info)
  /\ (forall key,
        CanonicalMIMEHeaderKey key <> CanonicalMIMEHeaderKey "x-goog-api-key" ->
        Header_Get CanonicalMIMEHeaderKey
          (fst (SetupRequestHeader CanonicalMIMEHeaderKey SetupApiRequestHeader c req info))
          key
        = Header_Get CanonicalMIMEHeaderKey (SetupApiRequestHeader info c req) key).
Proof.
  unfold SetupRequestHeader, Header_Get, Header_Set. cbn [fst snd].
  generalize (SetupApiRequestHeader info c req). unfold Header. intros h.
  split; [reflexivity|]. split; intros key Hkey.
  - rewrite Hkey, lookup_insert_eq. reflexivity.
  - rewrite lookup_insert_ne by congruence. reflexivity.
Qed.

End Converters.

Lemma converters_never_both_witness :
  ~ (is_Some (fst (ConvertOpenAIRequest
                     (fun (_ : unit) (_ : RelayInfo) =>
                        (Some "payload", Some (errors.New "partial")))
                     tt (sampleInfo "gemini-pro" false) (Some tt)))
     /\ is_Some (snd (ConvertOpenAIRequest
                        (fun (_ : unit) (_ : RelayInfo) =>
                           (Some "payload", Some (errors.New "partial")))
                        tt (sampleInfo "gemini-pro" false) (Some tt)))).
Proof.
  exact (proj1 (proj2 (converters_never_both unit string unit unit string
                         (fun _ => (Some "payload", Some (errors.New "partial")))
                         (fun _ _ => (Some "payload", Some (errors.New "partial")))
                         sampleParseInput sampleDecode (fun _ => ("{}", None))
                         tt (sampleInfo "gemini-pro" false)))
           (Some tt)).
Defined.

Lemma ConvertAudioRequest_payload_witness :
  ConvertAudioRequest (FunctionRequest := string) sampleDecode (fun _ => ("{}", None))
    tt (sampleInfo "gemini-pro" false) {| AudioRequest_Input := "not base64" |}
  = (None, Some (errors.New ("decode base64 audio data failed: "
                             +:+ error_Error (errors.New "invalid base64 data")))).
Proof.
  apply (proj1 (ConvertAudioRequest_payload unit string sampleDecode
                  (fun _ => ("{}", None)) tt (sampleInfo "gemini-pro" false)
                  {| AudioRequest_Input := "not base64" |} "" "")).
  reflexivity.
Defined.

Lemma ConvertEmbeddingRequest_dimension_witness :
  (UpstreamModelName (sampleInfo "text-embedding-004" false) = "text-embedding-004"
   /\ 0 < 256 ->
   OutputDimensionality
     {| Content := {| Role := ""; Parts := [textPart "a"] |};
        OutputDimensionality := 256 |} = 256)
  /\ (UpstreamModelName (sampleInfo "text-embedding-004" false) <> "text-embedding-004"
      \/ 256 <= 0 ->
      OutputDimensionality
        {| Content := {| Role := ""; Parts := [textPart "a"] |};
           OutputDimensionality := 256 |} = 0)
  /\ 0 <= OutputDimensionality
            {| Content := {| Role := ""; Parts := [textPart "a"] |};
               OutputDimensionality := 256 |}.
Proof.
  apply (ConvertEmbeddingRequest_dimension unit sampleParseInput tt
           (sampleInfo "text-embedding-004" false)
           {| EmbeddingRequest_Input := AnyString "a";
              EmbeddingRequest_Dimensions := 256 |}
           {| Content := {| Role := ""; Parts := [textPart "a"] |};
              OutputDimensionality := 256 |}).
  reflexivity.
Defined.

Lemma SetupRequestHeader_api_key_witness :
  Header_Get (fun key => key)
    (fst (SetupRequestHeader (fun key => key)
            (fun _ _ h => <["x-goog-api-key" := ["stale"]]> h)
            tt ∅ {| UpstreamModelName := "gemini-pro"; BaseUrl := "";
                    IsStream := false; ApiKey := "secret" |}))
    "x-goog-api-key"
  = "secret".
Proof.
  apply (proj1 (proj2 (SetupRequestHeader_api_key unit (fun key => key)
                         (fun _ _ h => <["x-goog-api-key" := ["stale"]]> h)
                         tt ∅ {| UpstreamModelName := "gemini-pro"; BaseUrl := "";
                                 IsStream := false; ApiKey := "secret" |}))).
  reflexivity.
Defined.

(** X20: with the adapter enabled, a name is cut at "-thinking-" whatever
    follows it: a budget that is no number, or a further suffix form, is
    dropped with the marker.  The cut falls at the marker written out
    whenever none starts inside the base. *)
Theorem thinkingAdapter_cuts_any_tail (GetGeminiVersionSetting : string -> string)
    (settings : GeminiSettings) (info : RelayInfo) (base tail : string) :
  ThinkingAdapterEnabled settings = true ->
  strings.Contains (base +:+ "-thinking") "-thinking-" = false ->
  thinkingAdapter settings (set_UpstreamModelName info (base +:+ "-thinking-" +:+ tail))
  = Returns (set_UpstreamModelName info base)
  /\ GetRequestURL GetGeminiVersionSetting settings
       (set_UpstreamModelName info (base +:+ "-thinking-" +:+ tail))
     = Returns (set_UpstreamModelName info base,
                (spec_url (BaseUrl info) (GetGeminiVersionSetting base) base
                   (spec_action base (IsStream info)),
                 None)).
Proof.
  intros Hon Hbase.
  pose proof (thinkingAdapter_cut settings info base tail Hon Hbase) as Hcut.
  split; [exact Hcut|]. rewrite (GetRequestURL_after _ _ _ _ Hcut). reflexivity.
Qed.

Lemma thinkingAdapter_cuts_any_tail_witness :
  thinkingAdapter {| ThinkingAdapterEnabled := true |}
    (set_UpstreamModelName (sampleInfo "" true)
       ("gemini-2.5-pro" +:+ "-thinking-" +:+ "high-nothinking"))
  = Returns (set_UpstreamModelName (sampleInfo "" true) "gemini-2.5-pro")
  /\ GetRequestURL sampleVersion {| ThinkingAdapterEnabled := true |}
       (set_UpstreamModelName (sampleInfo "" true)
          ("gemini-2.5-pro" +:+ "-thinking-" +:+ "high-nothinking"))
     = Returns (set_UpstreamModelName (sampleInfo "" true) "gemini-2.5-pro",
                (spec_url (BaseUrl (sampleInfo "" true)) (sampleVersion "gemini-2.5-pro")
                   "gemini-2.5-pro"
                   (spec_action "gemini-2.5-pro" (IsStream (sampleInfo "" true))),
                 None)).
Proof.
  apply (thinkingAdapter_cuts_any_tail sampleVersion {| ThinkingAdapterEnabled := true |}
           (sampleInfo "" true) "gemini-2.5-pro" "high-nothinking").
  - reflexivity.
  - vm_compute. reflexivity.
Defined.

Lemma ConvertImageRequest_iff_predict_witness :
  exists id action,
    GetRequestURL sampleVersion {| ThinkingAdapterEnabled := true |}
      (sampleInfo "imagen-3-thinking-64" false)
    = Returns (set_UpstreamModelName (sampleInfo "imagen-3-thinking-64" false) id,
               (spec_url (BaseUrl (sampleInfo "imagen-3-thinking-64" false))
                  (sampleVersion id) id action, None))
    /\ (snd (ConvertImageRequest tt (sampleInfo "imagen-3-thinking-64" false)
               {| ImageRequest_Prompt := "a cat"; ImageRequest_N := 1;
                  ImageRequest_Size := "" |}) = None
        <-> action = "predict")
    /\ (is_Some (fst (ConvertImageRequest tt (sampleInfo "imagen-3-thinking-64" false)
                        {| ImageRequest_Prompt := "a cat"; ImageRequest_N := 1;
                           ImageRequest_Size := "" |}))
        <-> action = "predict").
Proof.
  exact (ConvertImageRequest_iff_predict unit sampleVersion
           {| ThinkingAdapterEnabled := true |} tt
           (sampleInfo "imagen-3-thinking-64" false)
           {| ImageRequest_Prompt := "a cat"; ImageRequest_N := 1;
              ImageRequest_Size := "" |}).
Defined.

Lemma message_conversion_shape_witness :
  match openAIMessageToGeminiContent sampleDecode sampleFetch
          {| Message_Role := "assistant"; Message_Content := AnySlice [textItem "hi"] |} with
  | Returns (Some content, err) =>
      err = None
      /\ Role content = mapRole "assistant"
      /\ Role content <> "assistant"
  | Returns (None, err) => is_Some err
  | Panics _ => True
  end.
Proof.
  exact (message_conversion_shape sampleDecode sampleFetch
           {| Message_Role := "assistant"; Message_Content := AnySlice [textItem "hi"] |}).
Defined.

Example responses_undecodable_schema_adds_nothing :
  ConvertOpenAIResponsesRequest (FunctionRequest := string) sampleDecode sampleFetch
    sampleUnmarshalString (sampleUnmarshalMessages []) (sampleUnmarshalFails "")
    tt (sampleInfo "gemini-pro" false)
    (sampleResponsesRequest None
       [ {| ResponsesTool_Type := "function"; ResponsesTool_Function := Some "{" |};
         {| ResponsesTool_Type := "function"; ResponsesTool_Function := None |};
         {| ResponsesTool_Type := "web_search"; ResponsesTool_Function := None |} ])
  = Returns (Some {| Contents := [];
                     GenerationConfig :=
                       {| Temperature := Some 0%N; TopP := 0%N;
                          MaxOutputTokens := 1024 |};
                     SystemInstructions := None;
                     Tools := [ {| GoogleSearch := Some ∅;
                                   FunctionDeclarations := [] |} ] |},
             None).
Proof. reflexivity. Qed.

(** ** The budget form, for every base *)

(** A name that holds the marker written out has a first marker, at or
    before the one written out. *)
Lemma Index_marker_exists (sep rest : string) :
  forall base : string,
    exists m, strings.Index (base +:+ sep +:+ rest) sep = Some m
              /\ (m <= String.length base)%nat.
Proof.
  induction base as [|a base (m & Hm & Hle)].
  - exists O. split; [|simpl; lia].
    rewrite append_nil. apply Index_here, prefix_append.
  - rewrite append_cons.
    destruct (String.prefix sep (String a (base +:+ sep +:+ rest))) eqn:Hp.
    + exists O. split; [apply Index_here, Hp | simpl; lia].
    + exists (S m). split; [|simpl; lia].
      rewrite (Index_cons _ _ _ Hp), Hm. reflexivity.
Qed.

(** With the adapter enabled, a name that holds a marker is cut at its
    first marker. *)
Lemma thinkingAdapter_cut_at (settings : GeminiSettings) (info : RelayInfo)
    (name : string) (m : nat) :
  ThinkingAdapterEnabled settings = true ->
  strings.Index name "-thinking-" = Some m ->
  thinkingAdapter settings (set_UpstreamModelName info name)
  = Returns (set_UpstreamModelName info (strings.sliceTo name m)).
Proof.
  intros Hon Hidx. unfold thinkingAdapter. rewrite Hon. simpl UpstreamModelName.
  unfold strings.Contains. rewrite Hidx.
  change (strings.Split name "-thinking-")
    with (strings.genSplit (String.length name) name "-thinking-").
  destruct (String.length name) as [|rounds] eqn:Hlen.
  - destruct name; [discriminate Hidx | discriminate Hlen].
  - destruct (genSplit_first rounds _ _ _ Hidx) as [ps ->]. reflexivity.
Qed.

(** C3, amended: with the thinking adapter enabled and a budget [b >= 0],
    the model id [base ++ "-thinking-" ++ b] is, for every base, rewritten
    to the text before its first "-thinking-", a text that holds no marker
    and is no longer than the base; and for every base in which no
    instance of "-thinking-" starts (none occurs in
    [base ++ "-thinking"]) that text is [base] and the reasoning budget
    is [b]. *)
Theorem thinking_budget_directive (GetGeminiVersionSetting : string -> string)
    (settings : GeminiSettings) (info : RelayInfo) (base : string) (b : Z) :
  ThinkingAdapterEnabled settings = true ->
  0 <= b ->
  (exists m,
      strings.Index (base +:+ "-thinking-" +:+ strconv.Itoa b) "-thinking-" = Some m
      /\ (m <= String.length base)%nat
      /\ strings.Contains
           (strings.sliceTo (base +:+ "-thinking-" +:+ strconv.Itoa b) m) "-thinking-"
         = false
      /\ thinkingAdapter settings
           (set_UpstreamModelName info (base +:+ "-thinking-" +:+ strconv.Itoa b))
         = Returns (set_UpstreamModelName info
                      (strings.sliceTo (base +:+ "-thinking-" +:+ strconv.Itoa b) m))
      /\ fst <$> GetRequestURL GetGeminiVersionSetting settings
                   (set_UpstreamModelName info
                      (base +:+ "-thinking-" +:+ strconv.Itoa b))
         = Returns (set_UpstreamModelName info
                      (strings.sliceTo (base +:+ "-thinking-" +:+ strconv.Itoa b) m)))
  /\ (strings.Contains (base +:+ "-thinking") "-thinking-" = false ->
      thinkingAdapter settings
        (set_UpstreamModelName info (base +:+ "-thinking-" +:+ strconv.Itoa b))
      = Returns (set_UpstreamModelName info base)
      /\ fst <$> GetRequestURL GetGeminiVersionSetting settings
                   (set_UpstreamModelName info
                      (base +:+ "-thinking-" +:+ strconv.Itoa b))
         = Returns (set_UpstreamModelName info base)
      /\ reasoningBudget settings (base +:+ "-thinking-" +:+ strconv.Itoa b) = Some b).
Proof.
  intros Hon _. split.
  - destruct (Index_marker_exists "-thinking-" (strconv.Itoa b) base) as (m & Hm & Hle).
    pose proof (thinkingAdapter_cut_at settings info _ m Hon Hm) as Hcut.
    exists m. split; [exact Hm|]. split; [exact Hle|].
    split; [apply Contains_false_Index; exact (Index_Some_before _ _ _ _ Hm)|].
    split; [exact Hcut|].
    rewrite (GetRequestURL_after _ _ _ _ Hcut). reflexivity.
  - intros Hbase.
    pose proof (thinkingAdapter_cut settings info base (strconv.Itoa b) Hon Hbase) as Hcut.
    split; [exact Hcut|]. split.
    + rewrite (GetRequestURL_after _ _ _ _ Hcut). reflexivity.
    + unfold reasoningBudget. rewrite Hon, (Index_thinking_budget _ _ Hbase).
      rewrite sliceFrom_append.
      change (strings.sliceFrom ("-thinking-" +:+ strconv.Itoa b) (String.length "-thinking-"))
        with (strings.sliceFrom ("-thinking-" +:+ strconv.Itoa b)
                (String.length "-thinking-" + 0)).
      rewrite sliceFrom_append, sliceFrom_0. apply parseBudget_Itoa.
Qed.

Lemma thinking_budget_directive_witness :
  (exists m,
      strings.Index ("foo" +:+ "-thinking-" +:+ strconv.Itoa 512) "-thinking-" = Some m
      /\ (m <= String.length "foo")%nat
      /\ strings.Contains
           (strings.sliceTo ("foo" +:+ "-thinking-" +:+ strconv.Itoa 512) m) "-thinking-"
         = false
      /\ thinkingAdapter {| ThinkingAdapterEnabled := true |}
           (set_UpstreamModelName (sampleInfo "" false)
              ("foo" +:+ "-thinking-" +:+ strconv.Itoa 512))
         = Returns (set_UpstreamModelName (sampleInfo "" false)
                      (strings.sliceTo ("foo" +:+ "-thinking-" +:+ strconv.Itoa 512) m))
      /\ fst <$> GetRequestURL sampleVersion {| ThinkingAdapterEnabled := true |}
                   (set_UpstreamModelName (sampleInfo "" false)
                      ("foo" +:+ "-thinking-" +:+ strconv.Itoa 512))
         = Returns (set_UpstreamModelName (sampleInfo "" false)
                      (strings.sliceTo ("foo" +:+ "-thinking-" +:+ strconv.Itoa 512) m)))
  /\ thinkingAdapter {| ThinkingAdapterEnabled := true |}
       (set_UpstreamModelName (sampleInfo "" false)
          ("foo" +:+ "-thinking-" +:+ strconv.Itoa 512))
     = Returns (set_UpstreamModelName (sampleInfo "" false) "foo")
  /\ fst <$> GetRequestURL sampleVersion {| ThinkingAdapterEnabled := true |}
               (set_UpstreamModelName (sampleInfo "" false)
                  ("foo" +:+ "-thinking-" +:+ strconv.Itoa 512))
     = Returns (set_UpstreamModelName (sampleInfo "" false) "foo")
  /\ reasoningBudget {| ThinkingAdapterEnabled := true |}
       ("foo" +:+ "-thinking-" +:+ strconv.Itoa 512) = Some 512.
Proof.
  destruct (thinking_budget_directive sampleVersion {| ThinkingAdapterEnabled := true |}
              (sampleInfo "" false) "foo" 512 eq_refl ltac:(lia)) as [Hany Hclean].
  split; [exact Hany|]. apply Hclean. vm_compute. reflexivity.
Defined.

Example thinking_budget_directive_marked_base :
  exists m,
    strings.Index ("my-thinking-model" +:+ "-thinking-" +:+ strconv.Itoa 128) "-thinking-"
    = Some m
    /\ strings.sliceTo ("my-thinking-model" +:+ "-thinking-" +:+ strconv.Itoa 128) m = "my".
Proof. exists 2%nat. vm_compute. split; reflexivity. Qed.

(** C3 as stated fails for a base that itself holds "-thinking-": the id
    is cut at the first instance, so the base "my-thinking-model" with
    budget 128 comes out as "my", and what follows the cut is no integer. *)
Lemma thinking_budget_directive_counterexample :
  thinkingAdapter {| ThinkingAdapterEnabled := true |}
    (sampleInfo ("my-thinking-model" +:+ "-thinking-" +:+ strconv.Itoa 128) false)
  = Returns (sampleInfo "my" false)
  /\ reasoningBudget {| ThinkingAdapterEnabled := true |}
       ("my-thinking-model" +:+ "-thinking-" +:+ strconv.Itoa 128) = None
  /\ ~ (thinkingAdapter {| ThinkingAdapterEnabled := true |}
          (sampleInfo ("my-thinking-model" +:+ "-thinking-" +:+ strconv.Itoa 128) false)
        = Returns (sampleInfo "my-thinking-model" false)
        /\ reasoningBudget {| ThinkingAdapterEnabled := true |}
             ("my-thinking-model" +:+ "-thinking-" +:+ strconv.Itoa 128) = Some 128).
Proof.
  split; [vm_compute; reflexivity|].
  split; [vm_compute; reflexivity|].
  intros [H _]. vm_compute in H. discriminate H.
Qed.

